(** * Stock market analysis dashboard (community_gallery/stock_market_analysis/hello.py)

    A shallow embedding of the script's data pipeline: the pandas frames it
    manipulates (a column store with an index), the in-place normalisation
    done by [fetch_stock_data], the two rolling means and the boolean-mask
    filter.  Frames live in a heap and are addressed by reference, because
    the script mutates the fetched frame in place and later adds columns to
    it.  float64 cells are idealised as exact rationals, with NaN as [None].

    The presentation calls ([text], [table], [plotly]) are recorded and taken
    to succeed; the user's selections and the slider value are parameters of
    the run.  The service start-up of lines 13-19 carries no data and is left
    out. *)

From Stdlib Require Import ZArith QArith Qabs Lia Bool.
From Stdlib Require Import String Ascii DecimalString.
From stdpp Require Import base option list gmap strings.

Local Open Scope string_scope.
Local Open Scope nat_scope.

(** ** Cells and columns *)

(** A pandas Timestamp at second resolution.  [utcoffset] (in minutes) is
    only meaningful inside a timezone-aware column. *)
Record Timestamp := mkTimestamp {
  year : nat; month : nat; day : nat;
  hour : nat; minute : nat; second : nat;
  utcoffset : Z
}.

(** A float64 cell: a rational, or NaN. *)
Abbreviation float := (option Q) (only parsing).
Abbreviation NaN := (@None Q) (only parsing).

(** A typed column (a pandas Series without its index). *)
Inductive column :=
| FloatCol (xs : list float)
| IntCol (xs : list Z)
| BoolCol (xs : list bool)
| StrCol (xs : list string)
| TimeCol (aware : bool) (xs : list Timestamp).

Inductive cell :=
| CFloat (x : float)
| CInt (n : Z)
| CBool (b : bool)
| CStr (s : string)
| CTime (aware : bool) (t : Timestamp).

Definition col_cells (c : column) : list cell :=
  match c with
  | FloatCol xs => map CFloat xs
  | IntCol xs => map CInt xs
  | BoolCol xs => map CBool xs
  | StrCol xs => map CStr xs
  | TimeCol a xs => map (CTime a) xs
  end.

Definition col_len (c : column) : nat := length (col_cells c).

(** ** Rendering timestamps as text: [Series.astype(str)] on datetimes *)

Definition digit (d : nat) : ascii := ascii_of_nat (48 + d mod 10).

Definition pad2 (n : nat) : string :=
  String (digit (n / 10)) (String (digit n) "").

Definition pad4 (n : nat) : string :=
  String (digit (n / 1000)) (String (digit (n / 100)) (pad2 n)).

Definition date_str (t : Timestamp) : string :=
  pad4 (year t) ++ "-" ++ pad2 (month t) ++ "-" ++ pad2 (day t).

Definition time_str (t : Timestamp) : string :=
  pad2 (hour t) ++ ":" ++ pad2 (minute t) ++ ":" ++ pad2 (second t).

Definition offset_str (m : Z) : string :=
  let a := Z.to_nat (Z.abs m) in
  (if (m <? 0)%Z then "-" else "+") ++ pad2 (a / 60) ++ ":" ++ pad2 (a mod 60).

Definition is_midnight (t : Timestamp) : bool :=
  (hour t =? 0) && (minute t =? 0) && (second t =? 0).

(** pandas' [_is_dates_only]: no timezone and every value at midnight. *)
Definition is_dates_only (aware : bool) (xs : list Timestamp) : bool :=
  negb aware && forallb is_midnight xs.

Definition full_str (aware : bool) (t : Timestamp) : string :=
  date_str t ++ " " ++ time_str t ++
  (if aware then offset_str (utcoffset t) else "").

(** The compact date format is chosen for the whole column at once. *)
Definition datetime_strs (aware : bool) (xs : list Timestamp) : list string :=
  if is_dates_only aware xs then map date_str xs else map (full_str aware) xs.

Definition Z_str (n : Z) : string :=
  match n with
  | Z0 => "0"
  | Zpos p => NilEmpty.string_of_uint (Pos.to_uint p)
  | Zneg p => "-" ++ NilEmpty.string_of_uint (Pos.to_uint p)
  end.

Definition nat_str (n : nat) : string := Z_str (Z.of_nat n).

Definition bool_str (b : bool) : string := if b then "True" else "False".

(** The shape YYYY-MM-DD: ten characters, digits around two hyphens. *)
Definition is_digit (c : ascii) : bool :=
  let n := nat_of_ascii c in (48 <=? n) && (n <=? 57).

Definition is_canonical_date (s : string) : bool :=
  match list_ascii_of_string s with
  | [y1; y2; y3; y4; h1; m1; m2; h2; d1; d2] =>
      forallb is_digit [y1; y2; y3; y4; m1; m2; d1; d2] &&
      Ascii.eqb h1 "-" && Ascii.eqb h2 "-"
  | _ => false
  end.

(** ** Frames *)

(** A DataFrame: a named index and an ordered list of named columns. *)
Record DataFrame := mkFrame {
  index_name : option string;
  index : column;
  columns : list (string * column)
}.

(** [RangeIndex(n)] *)
Definition RangeIndex (n : nat) : column := IntCol (map Z.of_nat (seq 0 n)).

(** [pd.DataFrame()]: no rows and no columns. *)
Definition empty_frame : DataFrame :=
  {| index_name := None; index := RangeIndex 0; columns := [] |}.

Definition nrows (d : DataFrame) : nat := col_len (index d).

(** [df.empty]: some axis has length zero. *)
Definition is_empty (d : DataFrame) : bool :=
  (nrows d =? 0) || (length (columns d) =? 0).

(** Every column is as long as the index. *)
Definition well_formed (d : DataFrame) : Prop :=
  Forall (fun nc => col_len nc.2 = nrows d) (columns d).

(** The first entry under a name, in an ordered list of named things. *)
Fixpoint assoc {A} (name : string) (l : list (string * A)) : option A :=
  match l with
  | [] => None
  | (n, a) :: l' => if String.eqb n name then Some a else assoc name l'
  end.

Abbreviation find_col := (@assoc column) (only parsing).

(** Replace the column of that name where it stands, or append it. *)
Fixpoint set_col (name : string) (c : column) (cs : list (string * column))
  : list (string * column) :=
  match cs with
  | [] => [(name, c)]
  | (n, c0) :: cs' =>
      if String.eqb n name then (n, c) :: cs' else (n, c0) :: set_col name c cs'
  end.

(** Rows kept by a boolean mask, in order. *)
Fixpoint select {A} (mask : list bool) (xs : list A) : list A :=
  match mask, xs with
  | b :: mask', x :: xs' => if b then x :: select mask' xs' else select mask' xs'
  | _, _ => []
  end.

Definition select_col (mask : list bool) (c : column) : column :=
  match c with
  | FloatCol xs => FloatCol (select mask xs)
  | IntCol xs => IntCol (select mask xs)
  | BoolCol xs => BoolCol (select mask xs)
  | StrCol xs => StrCol (select mask xs)
  | TimeCol a xs => TimeCol a (select mask xs)
  end.

(** [df[mask]]: a new frame with the masked rows of the index and of every
    column. *)
Definition mask_frame (mask : list bool) (d : DataFrame) : DataFrame :=
  {| index_name := index_name d;
     index := select_col mask (index d);
     columns := map (fun nc => (nc.1, select_col mask nc.2)) (columns d) |}.

(** [df[[n1, ..., nk]]]: a new frame with the named columns, if all exist;
    otherwise the first missing name. *)
Fixpoint pick_cols (names : list string) (cs : list (string * column))
  : string + list (string * column) :=
  match names with
  | [] => inr []
  | n :: names' =>
      match find_col n cs with
      | None => inl n
      | Some c =>
          match pick_cols names' cs with
          | inl m => inl m
          | inr picked => inr ((n, c) :: picked)
          end
      end
  end.

(** The row-oriented reading of a frame: the index label of each row with
    its named cells. *)
Definition row : Type := cell * list (string * cell).

(** The first cell of every column, and the columns without it. *)
Definition heads (cols : list (string * list cell)) : list (string * cell) :=
  omap (fun nc : string * list cell => x ← head nc.2; Some (nc.1, x)) cols.

Definition tails (cols : list (string * list cell)) : list (string * list cell) :=
  map (fun nc => (nc.1, tail nc.2)) cols.

Fixpoint zip_rows (idx : list cell) (cols : list (string * list cell)) : list row :=
  match idx with
  | [] => []
  | lbl :: idx' => (lbl, heads cols) :: zip_rows idx' (tails cols)
  end.

Definition select_cols (mask : list bool) (cols : list (string * list cell))
  : list (string * list cell) :=
  map (fun nc => (nc.1, select mask nc.2)) cols.

Definition rows (d : DataFrame) : list row :=
  zip_rows (col_cells (index d)) (map (fun nc => (nc.1, col_cells nc.2)) (columns d)).

(** The cell of a row under a column name. *)
Abbreviation row_cell := (@assoc cell) (only parsing).

(** ** Column arithmetic *)

Definition Qltb (x y : Q) : bool := negb (Qle_bool y x).

Definition Qsum (xs : list Q) : Q := foldr Qplus 0%Q xs.

Definition Z_to_float (n : Z) : float := Some (inject_Z n).
Definition bool_to_float (b : bool) : float := Some (if b then 1%Q else 0%Q).

(** [x > threshold] on one float cell; NaN compares false. *)
Definition float_gt (threshold : Q) (x : float) : bool :=
  match x with
  | Some q => Qltb threshold q
  | None => false
  end.

(** The trailing window ending at position [i]: positions
    [max 0 (i + 1 - w)] up to [i]. *)
Definition window {A} (w i : nat) (xs : list A) : list A :=
  take (i + 1 - (i + 1 - w)) (drop (i + 1 - w) xs).

(** The non-NaN observations of a window. *)
Definition observations (xs : list float) : list Q := omap id xs.

(** One rolling mean: NaN unless the window holds at least [min_periods]
    observations (and at least one). *)
Definition mean_at (w min_periods i : nat) (xs : list float) : float :=
  let obs := observations (window w i xs) in
  let nobs := length obs in
  if (min_periods <=? nobs) && (0 <? nobs)
  then Some (Qred (Qsum obs / inject_Z (Z.of_nat nobs)))
  else None.

(** [Series.rolling(window=w).mean()] on float data; [min_periods] defaults
    to the window size. *)
Definition rolling_mean (w : nat) (xs : list float) : list float :=
  map (fun i => mean_at w w i xs) (seq 0 (length xs)).

(** ** Exceptions, state and the script monad *)

(** The subclasses of [Exception] that occur; [SourceError] stands for
    whatever the data source raises (connection, decoding, ...). *)
Inductive exn :=
| ValueError (msg : string)
| KeyError (key : string)
| TypeError (msg : string)
| DataError (msg : string)
| SourceError (msg : string).

(** [str(e)] *)
Definition exn_str (e : exn) : string :=
  match e with
  | KeyError k => "'" ++ k ++ "'"
  | ValueError m | TypeError m | DataError m | SourceError m => m
  end.

Inductive result (A : Type) :=
| Ok (a : A)
| Raise (e : exn).
Arguments Ok {A} a.
Arguments Raise {A} e.

Inductive level := INFO | WARNING | ERROR.

(** What the presentation layer was handed. *)
Inductive widget :=
| Text (body : string)
| Table (data : DataFrame) (title : string)
| Plotly (title : string) (x : column) (ys : list (string * column)).

Definition loc := nat.

Record state := mkState {
  heap : gmap loc DataFrame;
  logs : list (level * string);
  rendered : list widget
}.

Definition init_state : state :=
  {| heap := ∅; logs := []; rendered := [] |}.

#[global] Instance DataFrame_inhabited : Inhabited DataFrame := populate empty_frame.

(** The frame a reference points to. *)
Definition frame_at (s : state) (l : loc) : DataFrame := heap s !!! l.

Definition M (A : Type) : Type := state -> result A * state.

#[global] Instance M_ret : MRet M := fun A a s => (Ok a, s).
#[global] Instance M_bind : MBind M := fun A B f m s =>
  match m s with
  | (Ok a, s') => f a s'
  | (Raise e, s') => (Raise e, s')
  end.

Definition raise {A} (e : exn) : M A := fun s => (Raise e, s).

(** [try: body except Exception as e: handler e].  What the body did to the
    state before raising stays done. *)
Definition try_except {A} (body : M A) (handler : exn -> M A) : M A := fun s =>
  match body s with
  | (Ok a, s') => (Ok a, s')
  | (Raise e, s') => handler e s'
  end.

Definition lift {A} (r : result A) : M A := fun s => (r, s).

Definition logging (lv : level) (msg : string) : M unit := fun s =>
  (Ok tt, {| heap := heap s; logs := logs s ++ [(lv, msg)]; rendered := rendered s |}).

Definition render (w : widget) : M unit := fun s =>
  (Ok tt, {| heap := heap s; logs := logs s; rendered := rendered s ++ [w] |}).

(** A new frame object. *)
Definition alloc (d : DataFrame) : M loc := fun s =>
  let l := fresh (dom (heap s)) in
  (Ok l, {| heap := <[l := d]> (heap s); logs := logs s; rendered := rendered s |}).

Definition deref (l : loc) : M DataFrame := fun s => (Ok (frame_at s l), s).

Definition update (l : loc) (f : DataFrame -> DataFrame) : M unit := fun s =>
  (Ok tt, {| heap := <[l := f (frame_at s l)]> (heap s);
             logs := logs s; rendered := rendered s |}).

(** ** pandas operations on frame references *)

(** The column name [reset_index] gives the old index. *)
Definition reset_name (d : DataFrame) : string :=
  match index_name d with
  | Some n => n
  | None =>
      match find_col "index" (columns d) with
      | None => "index"
      | Some _ => "level_0"
      end
  end.

(** [df.reset_index(inplace=True)]: the index becomes the first column and
    is replaced by a RangeIndex; an existing column of that name is an
    error. *)
Definition reset_index (d : DataFrame) : result DataFrame :=
  let name := reset_name d in
  match find_col name (columns d) with
  | Some _ => Raise (ValueError ("cannot insert " ++ name ++ ", already exists"))
  | None =>
      Ok {| index_name := None;
            index := RangeIndex (nrows d);
            columns := (name, index d) :: columns d |}
  end.

Definition reset_index_inplace (l : loc) : M unit :=
  d ← deref l;
  d' ← lift (reset_index d);
  update l (fun _ => d').

(** [df[name]] *)
Definition getitem (l : loc) (name : string) : M column :=
  d ← deref l;
  match find_col name (columns d) with
  | Some c => mret c
  | None => raise (KeyError name)
  end.

(** [df[name] = c], in place. *)
Definition set_column (name : string) (c : column) (d : DataFrame) : DataFrame :=
  {| index_name := index_name d; index := index d;
     columns := set_col name c (columns d) |}.

Definition setitem (l : loc) (name : string) (c : column) : M unit :=
  update l (set_column name c).

(** [df[[n1, ..., nk]]]: a new object. *)
Definition project (l : loc) (names : list string) : M loc :=
  d ← deref l;
  match pick_cols names (columns d) with
  | inl missing => raise (KeyError missing)
  | inr cs => alloc {| index_name := index_name d; index := index d; columns := cs |}
  end.

(** [series > threshold] *)
Definition gt (c : column) (threshold : Q) : result (list bool) :=
  match c with
  | FloatCol xs => Ok (map (float_gt threshold) xs)
  | IntCol xs => Ok (map (fun n => Qltb threshold (inject_Z n)) xs)
  | BoolCol xs => Ok (map (fun b : bool => Qltb threshold (if b then 1%Q else 0%Q)) xs)
  | StrCol _ => Raise (TypeError "'>' not supported between instances of 'str' and 'int'")
  | TimeCol _ _ => Raise (TypeError "Invalid comparison between dtype=datetime64[ns] and int")
  end.

(** [df[mask]]: a new object. *)
Definition getitem_mask (l : loc) (mask : list bool) : M loc :=
  d ← deref l;
  alloc (mask_frame mask d).

(** [series.rolling(window=w).mean()]; numeric data is taken as float64,
    anything else cannot be aggregated. *)
Definition rolling_window_mean (w : nat) (c : column) : result column :=
  match c with
  | FloatCol xs => Ok (FloatCol (rolling_mean w xs))
  | IntCol xs => Ok (FloatCol (rolling_mean w (map Z_to_float xs)))
  | BoolCol xs => Ok (FloatCol (rolling_mean w (map bool_to_float xs)))
  | StrCol _ | TimeCol _ _ => Raise (DataError "No numeric types to aggregate")
  end.

(** ** The script *)

(** What [yf.Ticker(symbol).history(period=period)] did: it raised, or it
    returned a frame (possibly without rows). *)
Inductive fetch_outcome :=
| Unavailable (e : exn)
| Fetched (d : DataFrame).

Definition ohlcv : list string := ["Date"; "Open"; "High"; "Low"; "Close"; "Volume"].

Definition text (body : string) : M unit := render (Text body).

(** [table(frame, title=...)] *)
Definition table (l : loc) (title : string) : M unit :=
  d ← deref l; render (Table d title).

(** [len(df)] *)
Definition len (l : loc) : M nat := d ← deref l; mret (nrows d).

Section Script.

(** The external collaborators: the market data source, and Python's
    rendering of a number as text (left abstract). *)
Variable history : string -> string -> fetch_outcome.
Variable num_str : float -> string.

(** [series.astype(str)] *)
Definition astype_str (c : column) : column :=
  match c with
  | FloatCol xs => StrCol (map num_str xs)
  | IntCol xs => StrCol (map Z_str xs)
  | BoolCol xs => StrCol (map bool_str xs)
  | StrCol xs => StrCol xs
  | TimeCol a xs => StrCol (datetime_strs a xs)
  end.

(** [stock.history(period=period)]: the returned frame is a new object. *)
Definition stock_history (stock_symbol period : string) : M loc :=
  match history stock_symbol period with
  | Unavailable e => raise e
  | Fetched d => alloc d
  end.

(** Lines 29-35: the fetched frame is checked and rewritten in place; the
    reference handed back is the one received. *)
Definition normalize_inplace (df : loc) (stock_symbol : string) : M loc :=
  d ← deref df;
  (if is_empty d
   then raise (ValueError "No data fetched, possible API issue")
   else mret tt);;
  reset_index_inplace df;;
  date ← getitem df "Date";
  setitem df "Date" (astype_str date);;
  n ← len df;
  logging INFO ("Successfully fetched " ++ nat_str n ++ " records for "
                ++ stock_symbol ++ ".");;
  mret df.

(** Lines 26-35: the body of the [try]. *)
Definition fetch_body (stock_symbol period : string) : M loc :=
  df ← stock_history stock_symbol period;
  normalize_inplace df stock_symbol.

Definition fetch_stock_data (stock_symbol period : string) : M loc :=
  logging INFO ("Fetching stock data for " ++ stock_symbol
                ++ " for period " ++ period ++ "...");;
  try_except (fetch_body stock_symbol period)
    (fun e =>
       logging ERROR ("Error fetching data for " ++ stock_symbol ++ ": " ++ exn_str e);;
       alloc empty_frame).

(** Step 5, lines 68-76. *)
Definition candlestick_chart (df : loc) (selected_stock : string) : M unit :=
  text "## 🕯️ Stock Price Candlestick Chart";;
  x ← getitem df "Date";
  o ← getitem df "Open";
  h ← getitem df "High";
  l ← getitem df "Low";
  c ← getitem df "Close";
  render (Plotly (selected_stock ++ " Candlestick Chart") x
            [("open", o); ("high", h); ("low", l); ("close", c)]);;
  logging INFO "Candlestick chart displayed successfully!".

(** Lines 82-83: the two rolling means, each stored as a new column of
    the same frame object. *)
Definition add_moving_average (df : loc) (name : string) (w : nat) : M unit :=
  close ← getitem df "Close";
  ma ← lift (rolling_window_mean w close);
  setitem df name ma.

Definition compute_moving_averages (df : loc) : M unit :=
  add_moving_average df "MA7" 7;;
  add_moving_average df "MA30" 30.

(** Step 6, lines 82-89. *)
Definition moving_averages (df : loc) : M unit :=
  compute_moving_averages df;;
  logging INFO "Moving averages calculated successfully!";;
  text "## 📊 Moving Averages (7-day & 30-day)";;
  x ← getitem df "Date";
  c ← getitem df "Close";
  ma7 ← getitem df "MA7";
  ma30 ← getitem df "MA30";
  render (Plotly "Stock Price with Moving Averages" x
            [("Close", c); ("MA7", ma7); ("MA30", ma30)]);;
  logging INFO "Moving Averages chart displayed successfully!".

(** Line 100: [filtered_df = df[df["Close"] > threshold]]. *)
Definition filter_above (df : loc) (threshold : Q) : M loc :=
  close ← getitem df "Close";
  mask ← lift (gt close threshold);
  getitem_mask df mask.

(** Step 7, lines 95-102; [threshold] is the slider's value. *)
Definition filter_stocks (df : loc) (threshold : Q) : M loc :=
  text "## 🎯 Filter Stocks by Closing Price";;
  logging INFO ("User selected price threshold: " ++ num_str (Some threshold));;
  filtered_df ← filter_above df threshold;
  shown ← project filtered_df ["Date"; "Close"];
  table shown "Filtered Stock Data";;
  n ← len filtered_df;
  logging INFO ("Filtered " ++ nat_str n ++ " records above "
                ++ num_str (Some threshold) ++ " price.");;
  mret filtered_df.

(** Steps 4-7 on a frame that is not empty. *)
Definition display (df : loc) (selected_stock selected_time : string) (threshold : Q)
  : M (option loc) :=
  logging INFO "Displaying stock data table...";;
  text ("### 📊 Stock Data for " ++ selected_stock ++ " (" ++ selected_time ++ ")");;
  shown ← project df ohlcv;
  table shown "Stock Market Data";;
  try_except (candlestick_chart df selected_stock)
    (fun e => logging ERROR ("Error displaying candlestick chart: " ++ exn_str e));;
  try_except (moving_averages df)
    (fun e => logging ERROR ("Error calculating or displaying moving averages: "
                             ++ exn_str e));;
  try_except (filtered_df ← filter_stocks df threshold; mret (Some filtered_df))
    (fun e => logging ERROR ("Error filtering stocks: " ++ exn_str e);; mret None).

(** The whole run, from the user's selections; it yields the references
    bound to [df] and, when step 7 completed, to [filtered_df]. *)
Definition script (selected_stock selected_time : string) (threshold : Q)
  : M (loc * option loc) :=
  text "# 📈 Interactive Stock Market Analysis";;
  logging INFO "UI: Title displayed";;
  logging INFO ("User selected stock: " ++ selected_stock);;
  logging INFO ("User selected time period: " ++ selected_time);;
  df ← fetch_stock_data selected_stock selected_time;
  d ← deref df;
  filtered_df ←
    (if negb (is_empty d)
     then display df selected_stock selected_time threshold
     else
       text "⚠️ No stock data available. Please try again later.";;
       logging WARNING "No stock data available!";;
       mret None);
  logging INFO "Script execution completed!";;
  mret (df, filtered_df).

End Script.

(** ** Readings of a frame used in the statements *)

(** The frame's rows whose Close cell is a number above the threshold. *)
Definition close_above (threshold : Q) (r : row) : bool :=
  match row_cell "Close" r.2 with
  | Some (CFloat x) => float_gt threshold x
  | _ => false
  end.


(** The text of the Date column, when there is one. *)
Definition date_strings (d : DataFrame) : option (list string) :=
  match find_col "Date" (columns d) with
  | Some (StrCol xs) => Some xs
  | _ => None
  end.

(** The frame [normalize_inplace] leaves behind for a fetched frame whose
    datetime index is named Date. *)
Definition normalized (aware : bool) (ts : list Timestamp) (cs : list (string * column))
  : DataFrame :=
  {| index_name := None;
     index := RangeIndex (length ts);
     columns := ("Date", StrCol (datetime_strs aware ts)) :: cs |}.

(** What [normalize_inplace] makes of a fetched frame, as a function of the
    frame alone. *)
Definition normalize_frame (num_str : float -> string) (d : DataFrame)
  : result DataFrame :=
  if is_empty d then Raise (ValueError "No data fetched, possible API issue")
  else
    match reset_index d with
    | Raise e => Raise e
    | Ok d1 =>
        match find_col "Date" (columns d1) with
        | None => Raise (KeyError "Date")
        | Some date => Ok (set_column "Date" (astype_str num_str date) d1)
        end
    end.

(** The frame [fetch_stock_data] hands back, as a function of what the data
    source did. *)
Definition fetched_frame (num_str : float -> string) (o : fetch_outcome) : DataFrame :=
  match o with
  | Unavailable _ => empty_frame
  | Fetched d =>
      match normalize_frame num_str d with
      | Ok d' => d'
      | Raise _ => empty_frame
      end
  end.

(** ** Sample data *)

Definition midnight (y m d : nat) : Timestamp :=
  {| year := y; month := m; day := d; hour := 0; minute := 0; second := 0;
     utcoffset := (-300)%Z |}.

(** Three daily bars as the data source returns them, indexed by Date. *)
Definition sample_history (aware : bool) : DataFrame :=
  {| index_name := Some "Date";
     index := TimeCol aware [midnight 2024 1 1; midnight 2024 1 2; midnight 2024 1 3];
     columns := [("Open", FloatCol [Some 9%Q; Some 19%Q; Some 29%Q]);
                 ("High", FloatCol [Some 11%Q; Some 21%Q; Some 31%Q]);
                 ("Low", FloatCol [Some 8%Q; Some 18%Q; Some 28%Q]);
                 ("Close", FloatCol [Some 10%Q; Some 20%Q; Some 30%Q]);
                 ("Volume", IntCol [100%Z; 200%Z; 300%Z])] |}.

Definition sample_source (aware : bool) : string -> string -> fetch_outcome :=
  fun _ _ => Fetched (sample_history aware).

Definition failing_source : string -> string -> fetch_outcome :=
  fun _ _ => Unavailable (SourceError "connection timed out").

Definition sample_num_str : float -> string := fun _ => "nan".


(** A state holding one normalised frame at reference 0. *)
Definition sample_state : state :=
  {| heap := {[ 0 := normalized false
                      [midnight 2024 1 1; midnight 2024 1 2; midnight 2024 1 3]
                      (columns (sample_history false)) ]};
     logs := []; rendered := [] |}.

(** ** Further readings of a run *)

(** The frame with the two moving-average columns of step 6. *)
Definition with_moving_averages (closes : list float) (d : DataFrame) : DataFrame :=
  set_column "MA30" (FloatCol (rolling_mean 30 closes))
    (set_column "MA7" (FloatCol (rolling_mean 7 closes)) d).

(** The second record [fetch_stock_data] writes to the log. *)
Definition fetch_log (num_str : float -> string) (stock_symbol : string)
    (o : fetch_outcome) : level * string :=
  let failed e :=
    (ERROR, "Error fetching data for " ++ stock_symbol ++ ": " ++ exn_str e) in
  match o with
  | Unavailable e => failed e
  | Fetched d =>
      match normalize_frame num_str d with
      | Ok d' => (INFO, "Successfully fetched " ++ nat_str (nrows d')
                        ++ " records for " ++ stock_symbol ++ ".")
      | Raise e => failed e
      end
  end.

(** A column that is neither float, integer nor boolean. *)
Definition not_numeric (c : column) : Prop :=
  match c with
  | StrCol _ | TimeCol _ _ => True
  | _ => False
  end.

(** The tables among the widgets handed to the presentation layer. *)
Definition tables (ws : list widget) : list (DataFrame * string) :=
  omap (fun w => match w with
                 | Table d title => Some (d, title)
                 | _ => None
                 end) ws.

(** A row whose close is above both thresholds. *)
Definition both_above (t1 t2 : Q) (r : row) : bool :=
  close_above t1 r && close_above t2 r.

(** The names of a frame's columns, in order. *)
Definition column_names (d : DataFrame) : list string := map fst (columns d).

(** Intraday bars: the data source names their index Datetime. *)
Definition intraday_history : DataFrame :=
  {| index_name := Some "Datetime";
     index := TimeCol true [midnight 2024 1 1; midnight 2024 1 2; midnight 2024 1 3];
     columns := columns (sample_history true) |}.

(** Daily bars without a Volume column. *)
Definition no_volume_history : DataFrame :=
  {| index_name := Some "Date";
     index := TimeCol false [midnight 2024 1 1; midnight 2024 1 2; midnight 2024 1 3];
     columns := [("Open", FloatCol [Some 9%Q; Some 19%Q; Some 29%Q]);
                 ("High", FloatCol [Some 11%Q; Some 21%Q; Some 31%Q]);
                 ("Low", FloatCol [Some 8%Q; Some 18%Q; Some 28%Q]);
                 ("Close", FloatCol [Some 10%Q; Some 20%Q; Some 30%Q])] |}.

(** What a fetch of the sample bars leaves behind, from the initial state. *)
Definition sample_fetched_state : state :=
  (fetch_stock_data (sample_source false) sample_num_str "AAPL" "1mo" init_state).2.

(** A source of intraday bars, and one of bars without Volume. *)
Definition intraday_source : string -> string -> fetch_outcome :=
  fun _ _ => Fetched intraday_history.

Definition no_volume_source : string -> string -> fetch_outcome :=
  fun _ _ => Fetched no_volume_history.

(** A state holding a frame whose Close column is text. *)
Definition text_close_state : state :=
  {| heap := {[ 0 := {| index_name := None; index := RangeIndex 2;
                        columns := [("Date", StrCol ["2024-01-01"; "2024-01-02"]);
                                    ("Close", StrCol ["10"; "20"])] |} ]};
     logs := []; rendered := [] |}.

(** * Properties *)

(** ** Lists, masks and windows *)

Lemma lookup_map {A B} (f : A -> B) (l : list A) (i : nat) :
  map f l !! i = f <$> (l !! i).
Proof.
  revert i; induction l as [|x l IH]; intros [|i]; simpl; auto.
Qed.

Lemma select_nil_r {A} (mask : list bool) : select mask (@nil A) = [].
Proof. destruct mask; reflexivity. Qed.

Lemma select_map {A B} (f : A -> B) (mask : list bool) (xs : list A) :
  select mask (map f xs) = map f (select mask xs).
Proof.
  revert xs; induction mask as [|b mask IH]; intros [|x xs]; simpl; auto.
  destruct b; simpl; by rewrite IH.
Qed.

Lemma select_length_le {A} (mask : list bool) (xs : list A) :
  length (select mask xs) <= length xs.
Proof.
  revert xs; induction mask as [|b mask IH]; intros [|x xs]; simpl; try lia.
  specialize (IH xs). destruct b; simpl; lia.
Qed.


Lemma col_cells_select (mask : list bool) (c : column) :
  col_cells (select_col mask c) = select mask (col_cells c).
Proof. destruct c; simpl; by rewrite select_map. Qed.


Lemma observations_length (xs : list float) : length (observations xs) <= length xs.
Proof.
  unfold observations. induction xs as [|[x|] xs IH]; cbn in *; lia.
Qed.

Lemma window_length {A} (w i : nat) (xs : list A) :
  i < length xs -> length (window w i xs) = Nat.min w (i + 1).
Proof.
  intros Hi. unfold window. rewrite length_take, length_drop. lia.
Qed.




(** Before the window is full there are too few observations. *)
Lemma mean_at_short (w i : nat) (xs : list float) :
  i < w - 1 -> mean_at w w i xs = None.
Proof.
  intros Hlt. unfold mean_at.
  assert (Hlen : length (observations (window w i xs)) < w).
  { eapply Nat.le_lt_trans; [apply observations_length|].
    unfold window. rewrite length_take. lia. }
  rewrite (proj2 (Nat.leb_gt w _)) by exact Hlen. reflexivity.
Qed.

Lemma lookup_rolling_mean (w i : nat) (xs : list float) :
  i < length xs -> rolling_mean w xs !! i = Some (mean_at w w i xs).
Proof.
  intros Hi. unfold rolling_mean.
  rewrite lookup_map, lookup_seq_lt by exact Hi. reflexivity.
Qed.

Lemma rolling_mean_length (w : nat) (xs : list float) :
  length (rolling_mean w xs) = length xs.
Proof. unfold rolling_mean. by rewrite length_map, length_seq. Qed.

(** ** Columns of a frame *)

Lemma find_col_set_col_eq (name : string) (c : column) (cs : list (string * column)) :
  find_col name (set_col name c cs) = Some c.
Proof.
  induction cs as [|[n c0] cs IH]; simpl.
  - by rewrite String.eqb_refl.
  - destruct (String.eqb_spec n name) as [->|Hne]; simpl.
    + by rewrite String.eqb_refl.
    + by rewrite (proj2 (String.eqb_neq n name) Hne).
Qed.

Lemma find_col_set_col_ne (name other : string) (c : column) (cs : list (string * column)) :
  name <> other -> find_col other (set_col name c cs) = find_col other cs.
Proof.
  intros Hne. induction cs as [|[n c0] cs IH]; simpl.
  - by rewrite (proj2 (String.eqb_neq name other) Hne).
  - destruct (String.eqb_spec n name) as [->|Hn]; simpl.
    + by rewrite (proj2 (String.eqb_neq name other) Hne).
    + by rewrite IH.
Qed.

(** ** Running the monad *)

Lemma frame_at_insert_eq (h : gmap loc DataFrame) lg rd (l : loc) (d : DataFrame) :
  frame_at {| heap := <[l := d]> h; logs := lg; rendered := rd |} l = d.
Proof. unfold frame_at; simpl. apply lookup_total_insert_eq. Qed.

Lemma frame_at_insert_ne (h : gmap loc DataFrame) lg rd (l l' : loc) (d : DataFrame) :
  l <> l' ->
  frame_at {| heap := <[l := d]> h; logs := lg; rendered := rd |} l' = h !!! l'.
Proof. intros Hne. unfold frame_at; simpl. by apply lookup_total_insert_ne. Qed.

(** A reference whose frame has a column is live, so it is not the next
    fresh one. *)
Lemma frame_at_live (s : state) (l : loc) (name : string) (c : column) :
  find_col name (columns (frame_at s l)) = Some c -> l ∈ dom (heap s).
Proof.
  unfold frame_at. rewrite lookup_total_alt, elem_of_dom.
  destruct (heap s !! l) as [d|]; simpl; [eauto|discriminate].
Qed.

Lemma fresh_not_live (s : state) (l : loc) :
  l ∈ dom (heap s) -> fresh (dom (heap s)) <> l.
Proof. intros Hin Heq. subst l. exact (is_fresh (dom (heap s)) Hin). Qed.

Ltac run :=
  unfold mbind, M_bind, mret, M_ret, raise, lift, try_except, deref, update,
    alloc, logging, render, text, table, len; simpl.

Lemma add_moving_average_run (s : state) (df : loc) (name : string) (w : nat)
    (closes : list float) :
  find_col "Close" (columns (frame_at s df)) = Some (FloatCol closes) ->
  add_moving_average df name w s =
  (Ok tt, {| heap := <[df := set_column name (FloatCol (rolling_mean w closes))
                                          (frame_at s df)]> (heap s);
             logs := logs s; rendered := rendered s |}).
Proof.
  intros Hc. unfold add_moving_average, getitem, setitem. run.
  rewrite Hc. reflexivity.
Qed.

Lemma compute_moving_averages_run (s : state) (df : loc) (closes : list float) :
  find_col "Close" (columns (frame_at s df)) = Some (FloatCol closes) ->
  compute_moving_averages df s =
  (Ok tt, {| heap := <[df := set_column "MA30" (FloatCol (rolling_mean 30 closes))
                             (set_column "MA7" (FloatCol (rolling_mean 7 closes))
                                (frame_at s df))]> (heap s);
             logs := logs s; rendered := rendered s |}).
Proof.
  intros Hc. unfold compute_moving_averages.
  unfold mbind at 1, M_bind at 1.
  rewrite (add_moving_average_run s df "MA7" 7 closes Hc).
  rewrite (add_moving_average_run _ df "MA30" 30 closes).
  - rewrite frame_at_insert_eq. simpl. by rewrite insert_insert_eq.
  - rewrite frame_at_insert_eq. simpl.
    rewrite find_col_set_col_ne by discriminate. exact Hc.
Qed.

Lemma filter_above_run (s : state) (df : loc) (threshold : Q) (closes : list float) :
  find_col "Close" (columns (frame_at s df)) = Some (FloatCol closes) ->
  filter_above df threshold s =
  (Ok (fresh (dom (heap s))),
   {| heap := <[fresh (dom (heap s)) :=
                  mask_frame (map (float_gt threshold) closes) (frame_at s df)]> (heap s);
      logs := logs s; rendered := rendered s |}).
Proof.
  intros Hc. unfold filter_above, getitem, getitem_mask. run.
  rewrite Hc. reflexivity.
Qed.

(** ** Rows of a masked frame *)

Lemma heads_cons (n : string) (xs : list cell) (cols : list (string * list cell)) :
  heads ((n, xs) :: cols)
  = match xs with
    | [] => heads cols
    | x :: _ => (n, x) :: heads cols
    end.
Proof. destruct xs; reflexivity. Qed.

Lemma heads_select_true (mask : list bool) (cols : list (string * list cell)) :
  heads (select_cols (true :: mask) cols) = heads cols.
Proof.
  induction cols as [|[n xs] cols IH]; [reflexivity|].
  change (select_cols (true :: mask) ((n, xs) :: cols))
    with ((n, select (true :: mask) xs) :: select_cols (true :: mask) cols).
  rewrite !heads_cons, IH. destruct xs; reflexivity.
Qed.

Lemma tails_select (b : bool) (mask : list bool) (cols : list (string * list cell)) :
  (if b then tails (select_cols (b :: mask) cols) else select_cols (b :: mask) cols)
  = select_cols mask (tails cols).
Proof.
  unfold tails, select_cols.
  induction cols as [|[n [|x xs]] cols IH]; destruct b; simpl in *; auto;
    rewrite ?select_nil_r; by f_equal.
Qed.

Lemma zip_rows_select (mask : list bool) (idx : list cell)
    (cols : list (string * list cell)) :
  zip_rows (select mask idx) (select_cols mask cols) = select mask (zip_rows idx cols).
Proof.
  revert idx cols. induction mask as [|b mask IH]; intros [|lbl idx] cols; try reflexivity.
  pose proof (tails_select b mask cols) as Ht.
  destruct b; simpl.
  - by rewrite heads_select_true, Ht, IH.
  - by rewrite <- IH, <- Ht.
Qed.

Lemma rows_mask_frame (mask : list bool) (d : DataFrame) :
  rows (mask_frame mask d) = select mask (rows d).
Proof.
  unfold rows, mask_frame; simpl.
  rewrite col_cells_select, <- zip_rows_select. f_equal.
  unfold select_cols. rewrite !map_map. apply map_ext. intros [n c]; simpl.
  by rewrite col_cells_select.
Qed.

Lemma assoc_heads (name : string) (cols : list (string * list cell)) (n : nat) :
  Forall (fun nc => length nc.2 = S n) cols ->
  assoc name (heads cols) = assoc name cols ≫= head.
Proof.
  induction 1 as [|[m xs] cols Hlen _ IH]; [reflexivity|].
  rewrite heads_cons. destruct xs as [|x xs]; [discriminate|].
  simpl. destruct (String.eqb m name); [reflexivity|exact IH].
Qed.

Lemma assoc_tails (name : string) (cols : list (string * list cell)) :
  assoc name (tails cols) = tail <$> assoc name cols.
Proof.
  unfold tails. induction cols as [|[m xs] cols IH]; simpl; [reflexivity|].
  destruct (String.eqb m name); [reflexivity|exact IH].
Qed.

Lemma assoc_Forall {A} (P : string * A -> Prop) (name : string) (a : A)
    (l : list (string * A)) :
  Forall P l -> assoc name l = Some a -> exists n, P (n, a).
Proof.
  induction 1 as [|[m b] l Hp _ IH]; simpl; [discriminate|].
  destruct (String.eqb m name); [|exact IH].
  intros [= ->]. eauto.
Qed.

Lemma assoc_map {A B} (f : A -> B) (name : string) (l : list (string * A)) :
  assoc name (map (fun nc => (nc.1, f nc.2)) l) = f <$> assoc name l.
Proof.
  induction l as [|[m a] l IH]; simpl; [reflexivity|].
  destruct (String.eqb m name); [reflexivity|exact IH].
Qed.

(** Masking by a test on one column keeps exactly the rows whose cell in
    that column passes the test. *)
Lemma select_by_column (p : cell -> bool) (name : string) (idx cl : list cell)
    (cols : list (string * list cell)) :
  Forall (fun nc => length nc.2 = length idx) cols ->
  assoc name cols = Some cl ->
  select (map p cl) (zip_rows idx cols)
  = List.filter (fun r : row => match assoc name r.2 with
                                | Some c => p c
                                | None => false
                                end) (zip_rows idx cols).
Proof.
  revert cl cols. induction idx as [|lbl idx IH]; intros cl cols Hwf Hcl.
  { simpl. apply select_nil_r. }
  destruct (assoc_Forall _ _ _ _ Hwf Hcl) as [n Hlen]. simpl in Hlen.
  destruct cl as [|c cl]; [discriminate|].
  simpl.
  rewrite (assoc_heads name cols (length idx) Hwf), Hcl. simpl.
  assert (IH' : select (map p cl) (zip_rows idx (tails cols))
                = List.filter (fun r : row => match assoc name r.2 with
                                              | Some c => p c
                                              | None => false
                                              end) (zip_rows idx (tails cols))).
  { apply IH.
    - unfold tails. rewrite Forall_map. eapply Forall_impl; [exact Hwf|].
      intros [m xs]; simpl. destruct xs; simpl; [discriminate|lia].
    - by rewrite assoc_tails, Hcl. }
  destruct (p c); by rewrite IH'.
Qed.

(** ** The normaliser *)

Section Normaliser.

Context (history : string -> string -> fetch_outcome) (num_str : float -> string).

(** Whatever the body did, the handler turns a raise into a frame. *)
Lemma fetch_stock_data_total (stock_symbol period : string) (s : state) :
  exists l s', fetch_stock_data history num_str stock_symbol period s = (Ok l, s').
Proof.
  unfold fetch_stock_data. run.
  destruct (fetch_body _ _ _ _ _) as [[l|e] s1]; eauto.
Qed.

(** [normalize_inplace] only ever touches the frame it was given, and what
    it leaves there on success is [normalize_frame] of what was there. *)
Lemma normalize_inplace_run (df : loc) (stock_symbol : string) (s : state) :
  exists r s', normalize_inplace num_str df stock_symbol s = (r, s') /\
    (forall l, l <> df -> frame_at s' l = frame_at s l) /\
    dom (heap s) ⊆ dom (heap s') /\
    rendered s' = rendered s /\
    match normalize_frame num_str (frame_at s df) with
    | Ok d' => r = Ok df /\ frame_at s' df = d'
    | Raise e => r = Raise e
    end.
Proof.
  unfold normalize_inplace, normalize_frame, reset_index_inplace, getitem, setitem.
  run. destruct (is_empty (frame_at s df)); simpl.
  { do 2 eexists; split; [reflexivity|].
    split; [done|]. split; [set_solver|]. by split. }
  destruct (reset_index (frame_at s df)) as [d1|e]; simpl.
  2: { do 2 eexists; split; [reflexivity|].
    split; [done|]. split; [set_solver|]. by split. }
  rewrite frame_at_insert_eq.
  destruct (assoc "Date" (columns d1)) as [date|]; simpl.
  - do 2 eexists; split; [reflexivity|]. split; [|split; [|split; [|split]]]; simpl.
    + intros l Hl. unfold frame_at; simpl.
      by rewrite !lookup_total_insert_ne.
    + rewrite !dom_insert. set_solver.
    + reflexivity.
    + reflexivity.
    + unfold frame_at; simpl. by rewrite !lookup_total_insert_eq.
  - do 2 eexists; split; [reflexivity|]. split; [|split; [|split]]; simpl.
    + intros l Hl. unfold frame_at; simpl. by rewrite lookup_total_insert_ne.
    + rewrite dom_insert. set_solver.
    + reflexivity.
    + reflexivity.
Qed.

(** The frame handed back is a function of the data source's outcome, the
    reference is new, and no frame that existed before is touched. *)
Lemma fetch_stock_data_run (stock_symbol period : string) (s : state) :
  exists l s', fetch_stock_data history num_str stock_symbol period s = (Ok l, s') /\
    frame_at s' l = fetched_frame num_str (history stock_symbol period) /\
    (l ∉ dom (heap s)) /\
    (forall l', l' ∈ dom (heap s) -> frame_at s' l' = frame_at s l') /\
    rendered s' = rendered s.
Proof.
  unfold fetch_stock_data, fetch_body, stock_history, fetched_frame.
  unfold mbind at 1, M_bind at 1. unfold logging at 1.
  set (s0 := {| heap := heap s; logs := _; rendered := rendered s |}).
  unfold try_except.
  destruct (history stock_symbol period) as [e|d].
  - run. do 2 eexists; split; [reflexivity|].
    rewrite frame_at_insert_eq. repeat split; auto.
    + apply is_fresh.
    + intros l' Hl'. rewrite frame_at_insert_ne; [done|].
      by apply (fresh_not_live s).
  - unfold mbind at 1, M_bind at 1. unfold alloc at 1.
    set (l0 := fresh (dom (heap s0))).
    set (s1 := {| heap := <[l0 := d]> (heap s0); logs := _; rendered := _ |}).
    destruct (normalize_inplace_run l0 stock_symbol s1)
      as (r & s2 & Hrun & Hframe & Hdom & Hrd & Hres).
    rewrite Hrun.
    assert (Hd : frame_at s1 l0 = d) by apply frame_at_insert_eq.
    rewrite Hd in Hres.
    assert (Hold : forall l', l' ∈ dom (heap s) -> l' <> l0 /\ frame_at s1 l' = frame_at s l').
    { intros l' Hl'. assert (l0 <> l') by (by apply (fresh_not_live s0)).
      split; [done|]. unfold s1. by rewrite frame_at_insert_ne. }
    assert (Hsub : forall l', l' ∈ dom (heap s) -> l' ∈ dom (heap s2)).
    { intros l' Hl'. apply Hdom. unfold s1; simpl.
      by apply dom_insert_subseteq. }
    destruct (normalize_frame num_str d) as [d'|e].
    + destruct Hres as [-> Hat]. do 2 eexists; split; [reflexivity|].
      repeat split; auto.
      * apply (is_fresh (dom (heap s0))).
      * intros l' Hl'. pose proof (Hold l' Hl') as [Hne Heq].
        rewrite <- Heq. by apply Hframe.
    + subst r. run. do 2 eexists; split; [reflexivity|].
      rewrite frame_at_insert_eq. repeat split; auto.
      * intros Hin. apply (is_fresh (dom (heap s2))). by apply Hsub.
      * intros l' Hl'. pose proof (Hold l' Hl') as [Hne Heq].
        rewrite <- Heq, frame_at_insert_ne.
        -- by apply Hframe.
        -- apply (fresh_not_live s2). by apply Hsub.
Qed.

End Normaliser.

(** ** Moving averages *)


(** C6. The moving average of a Close column, for any window, succeeds and
    has exactly as many positions as the column has rows. *)
Theorem moving_average_same_length (w : nat) (closes : list float) :
  exists ma,
    rolling_window_mean w (FloatCol closes) = Ok (FloatCol ma) /\
    length ma = length closes /\
    col_len (FloatCol ma) = col_len (FloatCol closes).
Proof.
  eexists; split; [reflexivity|].
  unfold col_len; simpl. rewrite !length_map. split; apply rolling_mean_length.
Qed.

(** C10. When the series is shorter than the window, every position of the
    moving average is absent; so the 30-day column of a frame with fewer
    than 30 rows holds no value at all. *)
Theorem moving_average_short_series (w : nat) (closes : list float) :
  length closes < w ->
  rolling_window_mean w (FloatCol closes)
  = Ok (FloatCol (replicate (length closes) None)) /\
  (forall i, i < length closes -> rolling_mean w closes !! i = Some None) /\
  (w = 30 -> forall (s : state) (df : loc),
     find_col "Close" (columns (frame_at s df)) = Some (FloatCol closes) ->
     exists s', compute_moving_averages df s = (Ok tt, s') /\
       find_col "MA30" (columns (frame_at s' df))
       = Some (FloatCol (replicate (length closes) None))).
Proof.
  intros Hlen.
  assert (Hall : rolling_mean w closes = replicate (length closes) None).
  { apply list_eq. intros i. destruct (decide (i < length closes)) as [Hi|Hi].
    - rewrite lookup_rolling_mean by exact Hi.
      rewrite mean_at_short by lia. symmetry. by apply lookup_replicate_2.
    - rewrite !lookup_ge_None_2; [done| |].
      + rewrite length_replicate. lia.
      + rewrite rolling_mean_length. lia. }
  split; [simpl; by rewrite Hall|]. split.
  - intros i Hi. rewrite Hall. by apply lookup_replicate_2.
  - intros -> s df Hc. eexists. split; [by apply compute_moving_averages_run|].
    rewrite frame_at_insert_eq. simpl.
    by rewrite find_col_set_col_eq, Hall.
Qed.

(** C5. Computing the two moving averages leaves the series as it was: the
    index, the row count and every column other than the two new ones (so
    Date, Open, High, Low, Close and Volume) are unchanged, no other frame
    is touched, and each average is the rolling mean of the original closes
    whatever the other one is. *)
Theorem moving_averages_leave_series (s : state) (df : loc) (closes : list float) :
  find_col "Close" (columns (frame_at s df)) = Some (FloatCol closes) ->
  exists s',
    compute_moving_averages df s = (Ok tt, s') /\
    index (frame_at s' df) = index (frame_at s df) /\
    index_name (frame_at s' df) = index_name (frame_at s df) /\
    nrows (frame_at s' df) = nrows (frame_at s df) /\
    (forall name, name <> "MA7" -> name <> "MA30" ->
       find_col name (columns (frame_at s' df))
       = find_col name (columns (frame_at s df))) /\
    Forall (fun name => find_col name (columns (frame_at s' df))
                        = find_col name (columns (frame_at s df))) ohlcv /\
    find_col "MA7" (columns (frame_at s' df)) = Some (FloatCol (rolling_mean 7 closes)) /\
    find_col "MA30" (columns (frame_at s' df)) = Some (FloatCol (rolling_mean 30 closes)) /\
    (forall l, l <> df -> frame_at s' l = frame_at s l).
Proof.
  intros Hc. eexists. split; [by apply compute_moving_averages_run|].
  rewrite frame_at_insert_eq.
  assert (Hother : forall name, name <> "MA7" -> name <> "MA30" ->
            find_col name (columns (set_column "MA30" (FloatCol (rolling_mean 30 closes))
              (set_column "MA7" (FloatCol (rolling_mean 7 closes)) (frame_at s df))))
            = find_col name (columns (frame_at s df))).
  { intros name H7 H30. simpl.
    rewrite !find_col_set_col_ne by congruence. reflexivity. }
  repeat apply conj; try reflexivity.
  - exact Hother.
  - unfold ohlcv. repeat constructor; by apply Hother.
  - simpl. rewrite find_col_set_col_ne by discriminate. apply find_col_set_col_eq.
  - simpl. apply find_col_set_col_eq.
  - intros l Hl. by rewrite frame_at_insert_ne.
Qed.

(** ** The threshold filter *)

Lemma well_formed_cells (d : DataFrame) :
  well_formed d ->
  Forall (fun nc : string * list cell => length nc.2 = length (col_cells (index d)))
         (map (fun nc => (nc.1, col_cells nc.2)) (columns d)).
Proof.
  unfold well_formed, nrows, col_len. intros Hwf.
  rewrite Forall_map. eapply Forall_impl; [exact Hwf|]. by intros [n c].
Qed.

Lemma rows_filter_close (d : DataFrame) (threshold : Q) (closes : list float) :
  well_formed d ->
  find_col "Close" (columns d) = Some (FloatCol closes) ->
  rows (mask_frame (map (float_gt threshold) closes) d)
  = List.filter (close_above threshold) (rows d).
Proof.
  intros Hwf Hc. rewrite rows_mask_frame. unfold rows.
  pose (p := fun c => match c with CFloat x => float_gt threshold x | _ => false end).
  replace (map (float_gt threshold) closes) with (map p (map CFloat closes))
    by (by rewrite map_map).
  rewrite (select_by_column p "Close" _ (map CFloat closes)).
  - apply filter_ext. intros [lbl cs]. unfold close_above, p; simpl.
    destruct (assoc "Close" cs) as [[]|]; reflexivity.
  - by apply well_formed_cells.
  - by rewrite (assoc_map col_cells), Hc.
Qed.


(** C9. Filtering does not change the frame it filters, nor any other
    existing frame: the result is a new object, and filtering again with
    another threshold gives what it would have given on the state before. *)
Theorem filter_above_leaves_input (s : state) (df : loc) (threshold threshold' : Q)
    (closes : list float) :
  find_col "Close" (columns (frame_at s df)) = Some (FloatCol closes) ->
  exists l s',
    filter_above df threshold s = (Ok l, s') /\
    l <> df /\ (l ∉ dom (heap s)) /\
    frame_at s' df = frame_at s df /\
    (forall l', l' <> l -> frame_at s' l' = frame_at s l') /\
    exists l1 s1 l2 s2,
      filter_above df threshold' s' = (Ok l1, s1) /\
      filter_above df threshold' s = (Ok l2, s2) /\
      frame_at s1 l1 = frame_at s2 l2 /\
      frame_at s1 df = frame_at s df.
Proof.
  intros Hc.
  assert (Hne : fresh (dom (heap s)) <> df).
  { apply fresh_not_live. by eapply frame_at_live. }
  do 2 eexists. split; [by apply filter_above_run|].
  split; [exact Hne|]. split; [apply is_fresh|].
  assert (Hsame : frame_at
            {| heap := <[fresh (dom (heap s)) :=
                           mask_frame (map (float_gt threshold) closes) (frame_at s df)]>
                         (heap s);
               logs := logs s; rendered := rendered s |} df = frame_at s df).
  { by rewrite frame_at_insert_ne. }
  split; [exact Hsame|]. split.
  { intros l' Hl'. by rewrite frame_at_insert_ne. }
  do 4 eexists. split; [|split; [by apply filter_above_run|]].
  - apply filter_above_run. rewrite Hsame. exact Hc.
  - rewrite !frame_at_insert_eq. rewrite Hsame. split; [reflexivity|].
    rewrite frame_at_insert_ne.
    + exact Hsame.
    + apply fresh_not_live. simpl. apply dom_insert_subseteq.
      by eapply frame_at_live.
Qed.

(** ** Date strings *)

Arguments digit : simpl never.

Lemma is_digit_digit (n : nat) : is_digit (digit n) = true.
Proof.
  unfold is_digit, digit.
  assert (Hlt : n mod 10 < 10) by (apply Nat.mod_upper_bound; lia).
  rewrite nat_ascii_embedding by lia.
  apply andb_true_intro; split; apply Nat.leb_le; lia.
Qed.

Lemma date_str_canonical (t : Timestamp) : is_canonical_date (date_str t) = true.
Proof.
  unfold is_canonical_date, date_str, pad4, pad2.
  cbv [String.append list_ascii_of_string forallb].
  by rewrite !is_digit_digit.
Qed.

Lemma full_str_not_canonical (aware : bool) (t : Timestamp) :
  is_canonical_date (full_str aware t) = false.
Proof.
  unfold is_canonical_date, full_str, date_str, pad4, pad2.
  cbv [String.append list_ascii_of_string]. reflexivity.
Qed.

Lemma full_str_prefix (aware : bool) (t : Timestamp) :
  exists rest, full_str aware t = date_str t ++ rest.
Proof. unfold full_str. eauto. Qed.

Lemma datetime_strs_prefix (aware : bool) (ts : list Timestamp) :
  Forall2 (fun t str => is_canonical_date (date_str t) = true /\
                        exists rest, str = date_str t ++ rest)
          ts (datetime_strs aware ts).
Proof.
  unfold datetime_strs. destruct (is_dates_only aware ts).
  - induction ts as [|t ts IH]; simpl; constructor; [|exact IH].
    split; [apply date_str_canonical|]. exists "". clear.
    induction (date_str t) as [|c str IHs]; [reflexivity|].
    change (String c str = String c (str ++ "")). by f_equal.
  - induction ts as [|t ts IH]; simpl; constructor; [|exact IH].
    split; [apply date_str_canonical|apply full_str_prefix].
Qed.

Lemma normalize_frame_dated (num_str : float -> string) (d : DataFrame)
    (aware : bool) (ts : list Timestamp) :
  is_empty d = false ->
  index_name d = Some "Date" ->
  index d = TimeCol aware ts ->
  find_col "Date" (columns d) = None ->
  normalize_frame num_str d = Ok (normalized aware ts (columns d)).
Proof.
  intros Hne Hname Hidx Hcol.
  unfold normalize_frame, reset_index, reset_name. rewrite Hne, Hname, Hcol. simpl.
  unfold set_column, normalized, nrows, col_len. rewrite Hidx. simpl.
  by rewrite length_map.
Qed.

Lemma fetched_frame_failure (num_str : float -> string) (o : fetch_outcome) :
  (exists e, o = Unavailable e) \/ (exists d, o = Fetched d /\ nrows d = 0) ->
  fetched_frame num_str o = empty_frame.
Proof.
  intros [[e ->]|(d & -> & Hn)]; [reflexivity|].
  unfold fetched_frame, normalize_frame, is_empty. by rewrite Hn.
Qed.

(** C1. When the data source raises, or returns a frame with no rows,
    [fetch_stock_data] does not raise: it returns a reference to the empty
    frame, which has no rows. *)
Theorem fetch_failure_gives_empty_series
    (history : string -> string -> fetch_outcome) (num_str : float -> string)
    (stock_symbol period : string) (s : state) :
  (exists e, history stock_symbol period = Unavailable e) \/
  (exists d, history stock_symbol period = Fetched d /\ nrows d = 0) ->
  exists l s',
    fetch_stock_data history num_str stock_symbol period s = (Ok l, s') /\
    frame_at s' l = empty_frame /\
    rows (frame_at s' l) = [] /\
    is_empty (frame_at s' l) = true.
Proof.
  intros Hfail.
  destruct (fetch_stock_data_run history num_str stock_symbol period s)
    as (l & s' & Hrun & Hat & _).
  exists l, s'. split; [exact Hrun|].
  rewrite Hat, (fetched_frame_failure num_str _ Hfail). by repeat split.
Qed.

(** C4, as the code has it.  For a fetched frame with rows whose datetime
    index is named Date, the Date column of the result is the index run
    through [astype(str)]: every string begins with the date in
    YYYY-MM-DD form; the strings are exactly of that form when the index
    has no timezone and every value is at midnight, and otherwise carry
    the time of day (and the UTC offset of a timezone-aware index), so
    that none of them is of that form. *)
Theorem dates_rendered_by_astype_str
    (history : string -> string -> fetch_outcome) (num_str : float -> string)
    (stock_symbol period : string) (s : state) (d : DataFrame)
    (aware : bool) (ts : list Timestamp) :
  history stock_symbol period = Fetched d ->
  is_empty d = false ->
  index_name d = Some "Date" ->
  index d = TimeCol aware ts ->
  find_col "Date" (columns d) = None ->
  exists l s',
    fetch_stock_data history num_str stock_symbol period s = (Ok l, s') /\
    date_strings (frame_at s' l) = Some (datetime_strs aware ts) /\
    Forall2 (fun t str => is_canonical_date (date_str t) = true /\
                          exists rest, str = date_str t ++ rest)
            ts (datetime_strs aware ts) /\
    (is_dates_only aware ts = true ->
     Forall (fun str => is_canonical_date str = true) (datetime_strs aware ts)) /\
    (is_dates_only aware ts = false ->
     Forall (fun str => is_canonical_date str = false) (datetime_strs aware ts)).
Proof.
  intros Hhist Hne Hname Hidx Hcol.
  destruct (fetch_stock_data_run history num_str stock_symbol period s)
    as (l & s' & Hrun & Hat & _).
  exists l, s'. split; [exact Hrun|].
  rewrite Hat, Hhist. unfold fetched_frame.
  rewrite (normalize_frame_dated num_str d aware ts Hne Hname Hidx Hcol).
  split; [reflexivity|]. split; [apply datetime_strs_prefix|].
  unfold datetime_strs. split; intros ->; rewrite Forall_map, Forall_forall; intros t _.
  - apply date_str_canonical.
  - apply full_str_not_canonical.
Qed.

(** ** The gate in front of the derived steps *)





(** * Concrete runs *)

(** The example of the specification: closes 10, 20, 30 and window 2 give
    absent, 15, 25. *)
Example rolling_mean_example :
  rolling_mean 2 [Some 10%Q; Some 20%Q; Some 30%Q] = [None; Some 15%Q; Some 25%Q].
Proof. reflexivity. Qed.

Lemma fetch_failure_gives_empty_series_witness :
  exists l s',
    fetch_stock_data failing_source sample_num_str "AAPL" "1mo" init_state = (Ok l, s') /\
    frame_at s' l = empty_frame /\
    rows (frame_at s' l) = [] /\
    is_empty (frame_at s' l) = true.
Proof.
  apply fetch_failure_gives_empty_series.
  left. exists (SourceError "connection timed out"). reflexivity.
Defined.


Lemma moving_average_short_series_witness :
  rolling_window_mean 30 (FloatCol [Some 10%Q; Some 20%Q; Some 30%Q])
  = Ok (FloatCol (replicate 3 None)) /\
  (forall i, i < 3 -> rolling_mean 30 [Some 10%Q; Some 20%Q; Some 30%Q] !! i = Some None) /\
  (30 = 30 -> forall (s : state) (df : loc),
     find_col "Close" (columns (frame_at s df))
     = Some (FloatCol [Some 10%Q; Some 20%Q; Some 30%Q]) ->
     exists s', compute_moving_averages df s = (Ok tt, s') /\
       find_col "MA30" (columns (frame_at s' df)) = Some (FloatCol (replicate 3 None))).
Proof.
  apply (moving_average_short_series 30 [Some 10%Q; Some 20%Q; Some 30%Q]).
  simpl; lia.
Defined.

Lemma moving_averages_leave_series_witness :
  exists s',
    compute_moving_averages 0 sample_state = (Ok tt, s') /\
    find_col "Close" (columns (frame_at s' 0))
    = find_col "Close" (columns (frame_at sample_state 0)) /\
    find_col "MA7" (columns (frame_at s' 0)) = Some (FloatCol [None; None; None]).
Proof.
  destruct (moving_averages_leave_series sample_state 0
              [Some 10%Q; Some 20%Q; Some 30%Q] eq_refl)
    as (s' & Hrun & _ & _ & _ & Hother & _ & H7 & _).
  exists s'. split; [exact Hrun|]. split; [|exact H7].
  apply Hother; discriminate.
Defined.

Lemma sample_state_well_formed : well_formed (frame_at sample_state 0).
Proof. repeat constructor. Qed.


Lemma filter_above_leaves_input_witness :
  exists l s',
    filter_above 0 15%Q sample_state = (Ok l, s') /\
    l <> 0 /\ (l ∉ dom (heap sample_state)) /\
    frame_at s' 0 = frame_at sample_state 0 /\
    (forall l', l' <> l -> frame_at s' l' = frame_at sample_state l') /\
    exists l1 s1 l2 s2,
      filter_above 0 25%Q s' = (Ok l1, s1) /\
      filter_above 0 25%Q sample_state = (Ok l2, s2) /\
      frame_at s1 l1 = frame_at s2 l2 /\
      frame_at s1 0 = frame_at sample_state 0.
Proof.
  apply (filter_above_leaves_input sample_state 0 15%Q 25%Q
           [Some 10%Q; Some 20%Q; Some 30%Q]).
  reflexivity.
Defined.

Lemma dates_rendered_by_astype_str_witness :
  exists l s',
    fetch_stock_data (sample_source false) sample_num_str "AAPL" "1mo" init_state
    = (Ok l, s') /\
    date_strings (frame_at s' l) = Some ["2024-01-01"; "2024-01-02"; "2024-01-03"].
Proof.
  destruct (dates_rendered_by_astype_str (sample_source false) sample_num_str
              "AAPL" "1mo" init_state (sample_history false) false
              [midnight 2024 1 1; midnight 2024 1 2; midnight 2024 1 3]
              eq_refl eq_refl eq_refl eq_refl eq_refl)
    as (l & s' & Hrun & Hdates & _).
  exists l, s'. split; [exact Hrun|exact Hdates].
Defined.



(** ** Where the code departs from the specification *)

(** With the timezone-aware index the data source returns, the Date strings
    of a non-empty fetch are not of the form YYYY-MM-DD. *)
Lemma tz_aware_dates_not_canonical :
  exists l s',
    is_empty (sample_history true) = false /\
    fetch_stock_data (sample_source true) sample_num_str "AAPL" "1mo" init_state
    = (Ok l, s') /\
    date_strings (frame_at s' l)
    = Some ["2024-01-01 00:00:00-05:00"; "2024-01-02 00:00:00-05:00";
            "2024-01-03 00:00:00-05:00"] /\
    is_canonical_date "2024-01-01 00:00:00-05:00" = false.
Proof.
  do 2 eexists. split; [reflexivity|]. split; [vm_compute; reflexivity|].
  split; vm_compute; reflexivity.
Qed.




(** * Further properties of the code *)

(** ** What a successful normalisation keeps *)

Lemma col_len_RangeIndex (n : nat) : col_len (RangeIndex n) = n.
Proof. unfold col_len, RangeIndex; simpl. by rewrite !length_map, length_seq. Qed.

Lemma col_len_astype_str (num_str : float -> string) (c : column) :
  col_len (astype_str num_str c) = col_len c.
Proof.
  unfold col_len. destruct c; simpl; rewrite ?length_map; try reflexivity.
  unfold datetime_strs. destruct (is_dates_only aware xs); by rewrite length_map.
Qed.

Lemma set_col_length (name : string) (c c0 : column) (cs : list (string * column)) :
  find_col name cs = Some c0 -> length (set_col name c cs) = length cs.
Proof.
  induction cs as [|[n c1] cs IH]; simpl; [discriminate|].
  destruct (String.eqb n name); simpl; [reflexivity|].
  intros H. by rewrite IH.
Qed.

Lemma set_col_Forall (P : column -> Prop) (name : string) (c : column)
    (cs : list (string * column)) :
  P c -> Forall (fun nc => P nc.2) cs -> Forall (fun nc => P nc.2) (set_col name c cs).
Proof.
  intros Hc. induction 1 as [|[n c1] cs Hp Hcs IH]; simpl.
  - constructor; [exact Hc|constructor].
  - destruct (String.eqb n name); constructor; auto.
Qed.

(** What [normalize_frame] returns when it returns. *)
Lemma normalize_frame_ok_inv (num_str : float -> string) (d d' : DataFrame) :
  normalize_frame num_str d = Ok d' ->
  is_empty d = false /\
  find_col (reset_name d) (columns d) = None /\
  exists date,
    find_col "Date" ((reset_name d, index d) :: columns d) = Some date /\
    d' = {| index_name := None;
            index := RangeIndex (nrows d);
            columns := set_col "Date" (astype_str num_str date)
                         ((reset_name d, index d) :: columns d) |}.
Proof.
  unfold normalize_frame, reset_index.
  destruct (is_empty d); [discriminate|].
  destruct (find_col (reset_name d) (columns d)); [discriminate|].
  cbn [columns].
  destruct (find_col "Date" ((reset_name d, index d) :: columns d)) as [date|] eqn:Hd;
    [|discriminate].
  intros [= <-]. split; [reflexivity|]. split; [reflexivity|].
  exists date. split; reflexivity.
Qed.

Lemma fetched_frame_nonempty (num_str : float -> string) (o : fetch_outcome) :
  is_empty (fetched_frame num_str o) = false <->
  exists d d', o = Fetched d /\ normalize_frame num_str d = Ok d'.
Proof.
  split.
  - destruct o as [e|d]; simpl; [discriminate|].
    destruct (normalize_frame num_str d) as [d'|e] eqn:Hn; [eauto|discriminate].
  - intros (d & d' & -> & Hn). simpl. rewrite Hn.
    destruct (normalize_frame_ok_inv num_str d d' Hn) as (Hne & _ & date & Hdate & ->).
    unfold is_empty in *. cbn [columns]. unfold nrows in *. cbn [index].
    rewrite col_len_RangeIndex.
    apply orb_false_elim in Hne as [Hrows _]. rewrite Hrows.
    rewrite (set_col_length "Date" _ date _ Hdate). reflexivity.
Qed.

(** X1. The frame handed back holds data exactly when the data source returned
    a frame and its normalisation went through: the test [df.empty] of
    line 61 tells a successful fetch from every kind of failure. *)
Theorem fetch_nonempty_iff_normalised
    (history : string -> string -> fetch_outcome) (num_str : float -> string)
    (stock_symbol period : string) (s : state) :
  exists l s',
    fetch_stock_data history num_str stock_symbol period s = (Ok l, s') /\
    (is_empty (frame_at s' l) = false <->
     exists d d', history stock_symbol period = Fetched d /\
                  normalize_frame num_str d = Ok d' /\ frame_at s' l = d').
Proof.
  destruct (fetch_stock_data_run history num_str stock_symbol period s)
    as (l & s' & Hrun & Hat & _).
  exists l, s'. split; [exact Hrun|]. rewrite Hat. split.
  - intros Hne. apply fetched_frame_nonempty in Hne as (d & d' & Ho & Hn).
    exists d, d'. rewrite Ho. simpl. by rewrite Hn.
  - intros (d & d' & Ho & Hn & _). apply fetched_frame_nonempty; eauto.
Qed.

(** X2. A fetch that hands back data keeps the fetched frame's rows and
    columns: the row count is the same, the frame is again well formed
    under a fresh RangeIndex, it has one column more (the old index), every
    column other than Date and the old index is as it was, and the Date
    column is text with one string per row. *)
Theorem fetch_keeps_rows_and_columns
    (history : string -> string -> fetch_outcome) (num_str : float -> string)
    (stock_symbol period : string) (s s' : state) (l : loc) (d : DataFrame) :
  history stock_symbol period = Fetched d ->
  well_formed d ->
  fetch_stock_data history num_str stock_symbol period s = (Ok l, s') ->
  is_empty (frame_at s' l) = false ->
  nrows (frame_at s' l) = nrows d /\
  index (frame_at s' l) = RangeIndex (nrows d) /\
  well_formed (frame_at s' l) /\
  length (columns (frame_at s' l)) = S (length (columns d)) /\
  (forall name, name <> "Date" -> name <> reset_name d ->
     find_col name (columns (frame_at s' l)) = find_col name (columns d)) /\
  exists strs,
    find_col "Date" (columns (frame_at s' l)) = Some (StrCol strs) /\
    length strs = nrows d.
Proof.
  intros Ho Hwf Hrun Hne.
  destruct (fetch_stock_data_run history num_str stock_symbol period s)
    as (l0 & s0 & Hrun0 & Hat & _).
  rewrite Hrun in Hrun0. injection Hrun0 as <- <-.
  rewrite Hat in *. apply fetched_frame_nonempty in Hne as (d0 & d' & Ho' & Hn).
  rewrite Ho in Ho'. injection Ho' as <-.
  rewrite Ho. simpl. rewrite Hn.
  destruct (normalize_frame_ok_inv num_str d d' Hn) as (_ & Hfree & date & Hdate & ->).
  assert (Hlen : col_len date = nrows d).
  { simpl in Hdate. destruct (String.eqb (reset_name d) "Date").
    - by injection Hdate as <-.
    - unfold well_formed in Hwf.
      destruct (assoc_Forall _ _ _ _ Hwf Hdate) as [n Hn']. exact Hn'. }
  assert (Hn' : nrows {| index_name := None; index := RangeIndex (nrows d);
                         columns := set_col "Date" (astype_str num_str date)
                                      ((reset_name d, index d) :: columns d) |}
                = nrows d).
  { unfold nrows at 1. cbn [index]. apply col_len_RangeIndex. }
  split; [exact Hn'|]. split; [reflexivity|]. split; [|split; [|split]].
  - unfold well_formed. rewrite Hn'. cbn [columns].
    apply (set_col_Forall (fun c => col_len c = nrows d)).
    + by rewrite col_len_astype_str.
    + constructor; [reflexivity|exact Hwf].
  - cbn [columns]. by rewrite (set_col_length "Date" _ date _ Hdate).
  - intros name HD Hr. cbn [columns].
    rewrite find_col_set_col_ne by congruence. simpl.
    by rewrite (proj2 (String.eqb_neq (reset_name d) name)) by congruence.
  - cbn [columns]. rewrite find_col_set_col_eq.
    assert (Hstr : exists strs, astype_str num_str date = StrCol strs)
      by (destruct date; simpl; eauto).
    destruct Hstr as [strs Hstr]. exists strs. split; [by rewrite Hstr|].
    rewrite <- Hlen, <- (col_len_astype_str num_str date), Hstr.
    unfold col_len; simpl. by rewrite length_map.
Qed.

(** ** The log of a fetch *)

Lemma normalize_inplace_logs (num_str : float -> string) (df : loc)
    (stock_symbol : string) (s s' : state) (r : result loc) :
  normalize_inplace num_str df stock_symbol s = (r, s') ->
  logs s' = match normalize_frame num_str (frame_at s df) with
            | Ok d' => app (logs s)
                         [(INFO, "Successfully fetched " ++ nat_str (nrows d')
                                 ++ " records for " ++ stock_symbol ++ ".")]
            | Raise _ => logs s
            end.
Proof.
  unfold normalize_inplace, normalize_frame, reset_index_inplace, getitem, setitem.
  run. destruct (is_empty (frame_at s df)); simpl.
  { by intros [= _ <-]. }
  destruct (reset_index (frame_at s df)) as [d1|e]; simpl.
  2: { by intros [= _ <-]. }
  rewrite frame_at_insert_eq.
  destruct (assoc "Date" (columns d1)) as [date|]; simpl.
  - intros [= _ <-]. simpl. unfold frame_at; simpl.
    by rewrite !lookup_total_insert_eq.
  - by intros [= _ <-].
Qed.

Lemma fetch_stock_data_logs
    (history : string -> string -> fetch_outcome) (num_str : float -> string)
    (stock_symbol period : string) (s s' : state) (l : loc) :
  fetch_stock_data history num_str stock_symbol period s = (Ok l, s') ->
  logs s' = app (logs s)
              [(INFO, "Fetching stock data for " ++ stock_symbol
                      ++ " for period " ++ period ++ "...");
               fetch_log num_str stock_symbol (history stock_symbol period)].
Proof.
  unfold fetch_stock_data, fetch_body, stock_history, fetch_log.
  unfold mbind at 1, M_bind at 1. unfold logging at 1.
  set (s0 := {| heap := heap s; logs := _; rendered := rendered s |}).
  unfold try_except.
  destruct (history stock_symbol period) as [e|d].
  - run. intros [= _ <-]. simpl. by rewrite <- app_assoc.
  - unfold mbind at 1, M_bind at 1. unfold alloc at 1.
    set (l0 := fresh (dom (heap s0))).
    set (s1 := {| heap := <[l0 := d]> (heap s0); logs := _; rendered := _ |}).
    destruct (normalize_inplace num_str l0 stock_symbol s1) as [r s2] eqn:Hrun.
    pose proof (normalize_inplace_logs _ _ _ _ _ _ Hrun) as Hlogs.
    destruct (normalize_inplace_run history num_str l0 stock_symbol s1)
      as (r' & s2' & Hrun' & _ & _ & _ & Hres).
    rewrite Hrun in Hrun'. injection Hrun' as <- <-.
    assert (Hd : frame_at s1 l0 = d) by apply frame_at_insert_eq.
    rewrite Hd in Hlogs, Hres.
    destruct (normalize_frame num_str d) as [d'|e].
    + destruct Hres as [-> _]. intros [= _ <-]. rewrite Hlogs. simpl.
      by rewrite <- app_assoc.
    + subst r. run. intros [= _ <-]. simpl. rewrite Hlogs. simpl.
      by rewrite <- app_assoc.
Qed.

(** X3. Every call of [fetch_stock_data] adds exactly two records to the
    log: the announcement, then either the success record with the number
    of rows handed back or the error record with the text of the exception
    that was absorbed; the second is at level INFO exactly when the frame
    handed back holds data. *)
Theorem fetch_writes_two_log_records
    (history : string -> string -> fetch_outcome) (num_str : float -> string)
    (stock_symbol period : string) (s : state) :
  exists l s',
    fetch_stock_data history num_str stock_symbol period s = (Ok l, s') /\
    logs s' = app (logs s)
                [(INFO, "Fetching stock data for " ++ stock_symbol
                        ++ " for period " ++ period ++ "...");
                 fetch_log num_str stock_symbol (history stock_symbol period)] /\
    (is_empty (frame_at s' l) = false ->
     fetch_log num_str stock_symbol (history stock_symbol period)
     = (INFO, "Successfully fetched " ++ nat_str (nrows (frame_at s' l))
              ++ " records for " ++ stock_symbol ++ ".")) /\
    (is_empty (frame_at s' l) = true ->
     exists e, fetch_log num_str stock_symbol (history stock_symbol period)
               = (ERROR, "Error fetching data for " ++ stock_symbol ++ ": " ++ exn_str e)).
Proof.
  destruct (fetch_stock_data_run history num_str stock_symbol period s)
    as (l & s' & Hrun & Hat & _).
  exists l, s'. split; [exact Hrun|].
  split; [by apply fetch_stock_data_logs with (l := l)|].
  rewrite Hat. unfold fetch_log, fetched_frame.
  destruct (history stock_symbol period) as [e|d].
  - split; [discriminate|eauto].
  - destruct (normalize_frame num_str d) as [d'|e] eqn:Hn.
    + split; [reflexivity|]. intros Hempty.
      assert (Hne : is_empty (fetched_frame num_str (Fetched d)) = false)
        by (apply fetched_frame_nonempty; eauto).
      simpl in Hne. rewrite Hn in Hne. congruence.
    + split; [discriminate|eauto].
Qed.

(** X4. A fetched frame whose index is not named Date, and which has no
    Date column of its own (intraday bars, indexed by Datetime), is turned
    into the empty frame: the lookup of line 33 raises KeyError, which is
    absorbed and logged. *)
Theorem fetch_without_date_index_is_empty
    (history : string -> string -> fetch_outcome) (num_str : float -> string)
    (stock_symbol period : string) (s : state) (d : DataFrame) (name : string) :
  history stock_symbol period = Fetched d ->
  is_empty d = false ->
  index_name d = Some name ->
  name <> "Date" ->
  find_col name (columns d) = None ->
  find_col "Date" (columns d) = None ->
  exists l s',
    fetch_stock_data history num_str stock_symbol period s = (Ok l, s') /\
    frame_at s' l = empty_frame /\
    last (logs s') = Some (ERROR, "Error fetching data for " ++ stock_symbol ++ ": 'Date'").
Proof.
  intros Ho Hne Hname Hnd Hfree Hdate.
  assert (Hn : normalize_frame num_str d = Raise (KeyError "Date")).
  { unfold normalize_frame, reset_index, reset_name.
    rewrite Hne, Hname, Hfree. simpl.
    by rewrite (proj2 (String.eqb_neq name "Date") Hnd), Hdate. }
  destruct (fetch_stock_data_run history num_str stock_symbol period s)
    as (l & s' & Hrun & Hat & _).
  exists l, s'. split; [exact Hrun|]. split.
  - rewrite Hat, Ho. simpl. by rewrite Hn.
  - rewrite (fetch_stock_data_logs _ _ _ _ _ _ _ Hrun), Ho. unfold fetch_log.
    rewrite Hn. rewrite last_app. reflexivity.
Qed.

(** ** The moving-average step, further *)

Lemma set_col_id (name : string) (c : column) (cs : list (string * column)) :
  find_col name cs = Some c -> set_col name c cs = cs.
Proof.
  induction cs as [|[n c0] cs IH]; simpl; [discriminate|].
  destruct (String.eqb n name).
  - by intros [= ->].
  - intros H. by rewrite IH.
Qed.

Lemma set_col_names (name : string) (c : column) (cs : list (string * column)) :
  find_col name cs = None -> map fst (set_col name c cs) = app (map fst cs) [name].
Proof.
  induction cs as [|[n c0] cs IH]; simpl; [reflexivity|].
  destruct (String.eqb n name); [discriminate|].
  intros H. simpl. by rewrite IH.
Qed.


(** X6. On a well-formed frame the moving-average step keeps the frame
    well formed; the first time it appends the columns MA7 and MA30, in
    that order, after the existing ones, and running it again changes
    nothing. *)
Theorem moving_averages_append_once (s : state) (df : loc) (closes : list float) :
  well_formed (frame_at s df) ->
  find_col "Close" (columns (frame_at s df)) = Some (FloatCol closes) ->
  exists s1 s2,
    compute_moving_averages df s = (Ok tt, s1) /\
    well_formed (frame_at s1 df) /\
    (find_col "MA7" (columns (frame_at s df)) = None ->
     find_col "MA30" (columns (frame_at s df)) = None ->
     column_names (frame_at s1 df)
     = app (column_names (frame_at s df)) ["MA7"; "MA30"]) /\
    compute_moving_averages df s1 = (Ok tt, s2) /\
    frame_at s2 df = frame_at s1 df.
Proof.
  intros Hwf Hc.
  assert (Hlen : col_len (FloatCol closes) = nrows (frame_at s df)).
  { destruct (assoc_Forall _ _ _ _ Hwf Hc) as [n Hn]. exact Hn. }
  pose proof (compute_moving_averages_run s df closes Hc) as Hrun1.
  set (s1 := {| heap := <[df := _]> (heap s); logs := logs s; rendered := rendered s |})
    in Hrun1.
  assert (Hat1 : frame_at s1 df
                 = with_moving_averages closes (frame_at s df))
    by apply frame_at_insert_eq.
  assert (Hc1 : find_col "Close" (columns (frame_at s1 df)) = Some (FloatCol closes)).
  { rewrite Hat1. unfold with_moving_averages. simpl.
    by rewrite !find_col_set_col_ne by discriminate. }
  pose proof (compute_moving_averages_run s1 df closes Hc1) as Hrun2.
  do 2 eexists. split; [exact Hrun1|]. split; [|split; [|split; [exact Hrun2|]]].
  - rewrite Hat1. unfold well_formed, with_moving_averages, nrows. simpl.
    assert (Hma : forall w, col_len (FloatCol (rolling_mean w closes))
                            = col_len (index (frame_at s df))).
    { intros w. unfold nrows in Hlen. rewrite <- Hlen. unfold col_len; simpl.
      by rewrite !length_map, rolling_mean_length. }
    apply (set_col_Forall (fun c => col_len c = col_len (index (frame_at s df))));
      [apply Hma|].
    apply (set_col_Forall (fun c => col_len c = col_len (index (frame_at s df))));
      [apply Hma|exact Hwf].
  - intros H7 H30. rewrite Hat1. unfold column_names, with_moving_averages. simpl.
    rewrite set_col_names.
    + rewrite set_col_names by exact H7. by rewrite <- app_assoc.
    + by rewrite find_col_set_col_ne by discriminate.
  - rewrite frame_at_insert_eq, Hat1. unfold with_moving_averages, set_column. simpl.
    f_equal.
    rewrite (set_col_id "MA7").
    + apply set_col_id, find_col_set_col_eq.
    + rewrite find_col_set_col_ne by discriminate. apply find_col_set_col_eq.
Qed.

(** ** Rolling means, further *)

Lemma observations_cons (x : float) (xs : list float) :
  observations (x :: xs)
  = match x with
    | Some q => q :: observations xs
    | None => observations xs
    end.
Proof. destruct x; reflexivity. Qed.

Lemma observations_missing (xs : list float) :
  In None xs -> length (observations xs) < length xs.
Proof.
  induction xs as [|x xs IH]; [intros []|].
  rewrite observations_cons. intros [->|H].
  - pose proof (observations_length xs). simpl. lia.
  - specialize (IH H). destruct x; simpl; lia.
Qed.

(** X7. A missing close suppresses the moving average wherever it falls
    in the window: if one of the closes at positions [i - w + 1] to [i]
    is NaN, the average at [i] is NaN. *)
Theorem moving_average_nan_in_window (w i j : nat) (closes : list float) :
  i < length closes ->
  i + 1 - w <= j -> j <= i ->
  closes !! j = Some None ->
  rolling_mean w closes !! i = Some None.
Proof.
  intros Hi Hlo Hhi Hj. rewrite lookup_rolling_mean by exact Hi. f_equal.
  unfold mean_at.
  assert (Hin : In None (window w i closes)).
  { apply list_elem_of_In, list_elem_of_lookup. exists (j - (i + 1 - w)).
    unfold window. rewrite lookup_take_lt by lia.
    rewrite lookup_drop. replace (i + 1 - w + (j - (i + 1 - w))) with j by lia.
    exact Hj. }
  apply observations_missing in Hin.
  assert (Hw : length (window w i closes) <= w).
  { rewrite window_length by exact Hi. lia. }
  rewrite (proj2 (Nat.leb_gt w _)) by lia. reflexivity.
Qed.



(** ** The filter, further *)

Lemma select_length_eq {A B} (mask : list bool) (xs : list A) (ys : list B) :
  length xs = length ys -> length (select mask xs) = length (select mask ys).
Proof.
  revert xs ys. induction mask as [|b mask IH]; intros [|x xs] [|y ys] Hlen;
    simpl in *; try reflexivity; try discriminate.
  injection Hlen as Hlen. destruct b; simpl; by rewrite (IH xs ys Hlen).
Qed.

Lemma well_formed_mask_frame (mask : list bool) (d : DataFrame) :
  well_formed d -> well_formed (mask_frame mask d).
Proof.
  unfold well_formed, nrows, col_len, mask_frame. simpl. intros Hwf.
  rewrite Forall_map. eapply Forall_impl; [exact Hwf|].
  intros [n c] Hlen. simpl in *. rewrite !col_cells_select.
  by apply select_length_eq.
Qed.

Lemma filter_filter {A} (p q : A -> bool) (l : list A) :
  List.filter q (List.filter p l) = List.filter (fun x => p x && q x) l.
Proof.
  induction l as [|x l IH]; simpl; [reflexivity|].
  destruct (p x); simpl; [destruct (q x)|]; by rewrite IH.
Qed.

Lemma close_above_mono (t1 t2 : Q) (r : row) :
  (t1 <= t2)%Q -> close_above t2 r = true -> close_above t1 r = true.
Proof.
  intros Hle. unfold close_above.
  destruct (assoc "Close" r.2) as [[[q|]| | | |]|]; simpl; try discriminate.
  unfold Qltb. rewrite !negb_true_iff, <- !not_true_iff_false, !Qle_bool_iff.
  intros Hn Hq. apply Hn. by apply Qle_trans with t1.
Qed.

(** X9. Filters compose: filtering the filtered frame with a second
    threshold keeps exactly the rows above both thresholds; when the second
    threshold is the higher one this is what filtering the original frame
    with it gives, so filtering twice with one threshold changes nothing. *)
Theorem filter_above_twice (s : state) (df : loc) (t1 t2 : Q) (closes : list float) :
  well_formed (frame_at s df) ->
  find_col "Close" (columns (frame_at s df)) = Some (FloatCol closes) ->
  exists l1 s1 l2 s2,
    filter_above df t1 s = (Ok l1, s1) /\
    well_formed (frame_at s1 l1) /\
    filter_above l1 t2 s1 = (Ok l2, s2) /\
    rows (frame_at s2 l2) = List.filter (both_above t1 t2) (rows (frame_at s df)) /\
    ((t1 <= t2)%Q ->
     rows (frame_at s2 l2) = List.filter (close_above t2) (rows (frame_at s df))).
Proof.
  intros Hwf Hc.
  pose proof (filter_above_run s df t1 closes Hc) as Hrun1.
  set (l1 := fresh (dom (heap s))) in Hrun1.
  set (s1 := {| heap := <[l1 := _]> (heap s); logs := logs s; rendered := rendered s |})
    in Hrun1.
  assert (Hat1 : frame_at s1 l1
                 = mask_frame (map (float_gt t1) closes) (frame_at s df))
    by apply frame_at_insert_eq.
  assert (Hwf1 : well_formed (frame_at s1 l1)).
  { rewrite Hat1. by apply well_formed_mask_frame. }
  assert (Hc1 : find_col "Close" (columns (frame_at s1 l1))
                = Some (FloatCol (select (map (float_gt t1) closes) closes))).
  { rewrite Hat1. unfold mask_frame. simpl.
    by rewrite (assoc_map (select_col (map (float_gt t1) closes))), Hc. }
  pose proof (filter_above_run s1 l1 t2 _ Hc1) as Hrun2.
  assert (Hrows : rows (mask_frame (map (float_gt t2)
                          (select (map (float_gt t1) closes) closes)) (frame_at s1 l1))
                  = List.filter (both_above t1 t2) (rows (frame_at s df))).
  { rewrite (rows_filter_close _ t2 _ Hwf1 Hc1), Hat1.
    rewrite (rows_filter_close _ t1 closes Hwf Hc). apply filter_filter. }
  do 4 eexists. split; [exact Hrun1|]. split; [exact Hwf1|]. split; [exact Hrun2|].
  rewrite frame_at_insert_eq. split; [exact Hrows|].
  intros Hle. rewrite Hrows. apply filter_ext. intros r. unfold both_above.
  destruct (close_above t2 r) eqn:H2.
  - by rewrite (close_above_mono t1 t2 r Hle H2).
  - by rewrite andb_false_r.
Qed.

(** ** The script as a whole *)


Lemma pick_cols_found (names : list string) (cs : list (string * column)) :
  Forall (fun n => is_Some (find_col n cs)) names ->
  exists picked, pick_cols names cs = inr picked /\ map fst picked = names /\
                 Forall (fun nc => find_col nc.1 cs = Some nc.2) picked.
Proof.
  induction 1 as [|n names [c Hc] _ (picked & Hp & Hn & Hall)]; simpl.
  - exists []. by repeat split.
  - rewrite Hc, Hp. exists ((n, c) :: picked). split; [reflexivity|].
    split; [simpl; by rewrite Hn|]. by constructor.
Qed.

Lemma tables_app (ws1 ws2 : list widget) :
  tables (app ws1 ws2) = app (tables ws1) (tables ws2).
Proof. apply omap_app. Qed.

Lemma frame_at_same_heap (s s' : state) (l : loc) :
  heap s' = heap s -> frame_at s' l = frame_at s l.
Proof. unfold frame_at. by intros ->. Qed.

Arguments candlestick_chart : simpl never.
Arguments moving_averages : simpl never.
Arguments filter_stocks : simpl never.
Arguments pick_cols : simpl never.



(** *** The steps on the path without errors *)

Lemma candlestick_chart_run (s : state) (df : loc) (selected_stock : string)
    (x o h l c : column) :
  find_col "Date" (columns (frame_at s df)) = Some x ->
  find_col "Open" (columns (frame_at s df)) = Some o ->
  find_col "High" (columns (frame_at s df)) = Some h ->
  find_col "Low" (columns (frame_at s df)) = Some l ->
  find_col "Close" (columns (frame_at s df)) = Some c ->
  exists s',
    candlestick_chart df selected_stock s = (Ok tt, s') /\
    heap s' = heap s /\
    tables (rendered s') = tables (rendered s).
Proof.
  intros Hx Ho Hh Hl Hc. unfold candlestick_chart, getitem. run.
  unfold frame_at in *; simpl.
  rewrite Hx; simpl. rewrite Ho; simpl. rewrite Hh; simpl.
  rewrite Hl; simpl. rewrite Hc; simpl.
  eexists. split; [reflexivity|]. split; [reflexivity|]. simpl.
  rewrite !tables_app. simpl. by rewrite !app_nil_r.
Qed.

Lemma moving_averages_run (s : state) (df : loc) (x : column) (closes : list float) :
  find_col "Date" (columns (frame_at s df)) = Some x ->
  find_col "Close" (columns (frame_at s df)) = Some (FloatCol closes) ->
  exists s',
    moving_averages df s = (Ok tt, s') /\
    heap s' = <[df := with_moving_averages closes (frame_at s df)]> (heap s) /\
    tables (rendered s') = tables (rendered s).
Proof.
  intros Hx Hc. unfold moving_averages.
  unfold mbind at 1, M_bind at 1.
  rewrite (compute_moving_averages_run s df closes Hc).
  unfold getitem. run.
  repeat (first [ rewrite frame_at_insert_eq
                | rewrite find_col_set_col_ne by discriminate
                | rewrite find_col_set_col_eq
                | rewrite Hx
                | rewrite Hc ]; simpl).
  eexists. split; [reflexivity|]. split; [reflexivity|]. simpl.
  rewrite !tables_app. simpl. by rewrite !app_nil_r.
Qed.

Lemma filter_stocks_run (num_str : float -> string) (s : state) (df : loc)
    (threshold : Q) (x : column) (closes : list float) :
  find_col "Date" (columns (frame_at s df)) = Some x ->
  find_col "Close" (columns (frame_at s df)) = Some (FloatCol closes) ->
  exists filtered_df s',
    filter_stocks num_str df threshold s = (Ok filtered_df, s') /\
    filtered_df <> df /\
    frame_at s' df = frame_at s df /\
    frame_at s' filtered_df
    = mask_frame (map (float_gt threshold) closes) (frame_at s df) /\
    tables (rendered s')
    = app (tables (rendered s))
        [({| index_name := index_name (frame_at s df);
             index := select_col (map (float_gt threshold) closes)
                        (index (frame_at s df));
             columns :=
               [("Date", select_col (map (float_gt threshold) closes) x);
                ("Close", FloatCol (select (map (float_gt threshold) closes) closes))] |},
          "Filtered Stock Data")].
Proof.
  intros Hx Hc.
  assert (Hlive : df ∈ dom (heap s)) by (by eapply frame_at_live).
  unfold filter_stocks, filter_above, getitem, getitem_mask, project. run.
  unfold frame_at in *; simpl. rewrite Hc. simpl.
  rewrite !lookup_total_insert_eq. unfold mask_frame at 1. cbn [columns].
  unfold pick_cols.
  rewrite !(assoc_map (select_col (map (float_gt threshold) closes))), Hx, Hc. simpl.
  rewrite !lookup_total_insert_eq.
  do 2 eexists. split; [reflexivity|]. simpl.
  assert (Hne : fresh (dom (heap s)) <> df) by (by apply fresh_not_live).
  split; [exact Hne|]. split; [|split].
  - rewrite lookup_total_insert_ne.
    + by rewrite lookup_total_insert_ne.
    + intros Heq. eapply (is_fresh (dom (<[fresh (dom (heap s)) := _]> (heap s)))).
      rewrite Heq. by apply dom_insert_subseteq.
  - rewrite lookup_total_insert_ne; [by rewrite lookup_total_insert_eq|].
    intros Heq. eapply (is_fresh (dom (<[fresh (dom (heap s)) := _]> (heap s)))).
    rewrite Heq. apply (elem_of_dom_2 _ _ _ (lookup_insert_eq _ _ _)).
  - rewrite !tables_app. simpl. by rewrite !app_nil_r.
Qed.

Lemma display_run (num_str : float -> string) (s : state) (df : loc)
    (selected_stock selected_time : string) (threshold : Q)
    (x o h l v : column) (closes : list float) :
  find_col "Date" (columns (frame_at s df)) = Some x ->
  find_col "Open" (columns (frame_at s df)) = Some o ->
  find_col "High" (columns (frame_at s df)) = Some h ->
  find_col "Low" (columns (frame_at s df)) = Some l ->
  find_col "Close" (columns (frame_at s df)) = Some (FloatCol closes) ->
  find_col "Volume" (columns (frame_at s df)) = Some v ->
  exists filtered_df s',
    display num_str df selected_stock selected_time threshold s
    = (Ok (Some filtered_df), s') /\
    filtered_df <> df /\
    frame_at s' df = with_moving_averages closes (frame_at s df) /\
    frame_at s' filtered_df
    = mask_frame (map (float_gt threshold) closes)
        (with_moving_averages closes (frame_at s df)) /\
    tables (rendered s')
    = app (tables (rendered s))
        [({| index_name := index_name (frame_at s df);
             index := index (frame_at s df);
             columns := [("Date", x); ("Open", o); ("High", h); ("Low", l);
                         ("Close", FloatCol closes); ("Volume", v)] |},
          "Stock Market Data");
         ({| index_name := index_name (frame_at s df);
             index := select_col (map (float_gt threshold) closes)
                        (index (frame_at s df));
             columns :=
               [("Date", select_col (map (float_gt threshold) closes) x);
                ("Close", FloatCol (select (map (float_gt threshold) closes) closes))] |},
          "Filtered Stock Data")].
Proof.
  intros Hx Ho Hh Hl Hc Hv.
  assert (Hlive : df ∈ dom (heap s)) by (by eapply frame_at_live).
  assert (Hne : fresh (dom (heap s)) <> df) by (by apply fresh_not_live).
  unfold display, project. run.
  assert (Hpick : pick_cols ohlcv (columns (frame_at s df))
                  = inr [("Date", x); ("Open", o); ("High", h); ("Low", l);
                         ("Close", FloatCol closes); ("Volume", v)]).
  { unfold pick_cols, ohlcv. by rewrite Hx, Ho, Hh, Hl, Hc, Hv. }
  unfold frame_at in *; simpl. rewrite Hpick. simpl.
  rewrite lookup_total_insert_eq.
  match goal with
  | |- context [candlestick_chart df selected_stock ?sa] =>
      destruct (candlestick_chart_run sa df selected_stock x o h l (FloatCol closes))
        as (sb & Hb & Hheapb & Htabb);
      try (unfold frame_at; simpl; by rewrite lookup_total_insert_ne)
  end.
  rewrite Hb. simpl.
  assert (Hdfb : heap sb !!! df = heap s !!! df).
  { rewrite Hheapb. simpl. by rewrite lookup_total_insert_ne. }
  destruct (moving_averages_run sb df x closes) as (sc & Hc' & Hheapc & Htabc);
    try (unfold frame_at; by rewrite Hdfb).
  rewrite Hc'. simpl.
  assert (Hdfc : heap sc !!! df = with_moving_averages closes (heap s !!! df)).
  { rewrite Hheapc, lookup_total_insert_eq. unfold frame_at. by rewrite Hdfb. }
  destruct (filter_stocks_run num_str sc df threshold x closes)
    as (fl & sd & Hd & Hfl & Hdfd & Hfld & Htabd).
  { unfold frame_at. rewrite Hdfc. unfold with_moving_averages. simpl.
    by rewrite !find_col_set_col_ne by discriminate. }
  { unfold frame_at. rewrite Hdfc. unfold with_moving_averages. simpl.
    by rewrite !find_col_set_col_ne by discriminate. }
  rewrite Hd. simpl.
  unfold frame_at in *. rewrite Hdfc in *.
  exists fl, sd. split; [reflexivity|]. split; [exact Hfl|].
  split; [exact Hdfd|]. split; [exact Hfld|].
  rewrite Htabd, Htabc, Htabb. simpl.
  rewrite !tables_app. simpl. rewrite !app_nil_r, <- app_assoc. reflexivity.
Qed.

Lemma normalized_well_formed (d : DataFrame) (aware : bool) (ts : list Timestamp) :
  well_formed d -> index d = TimeCol aware ts ->
  well_formed (normalized aware ts (columns d)).
Proof.
  unfold well_formed, normalized, nrows. simpl. intros Hwf Hidx.
  rewrite col_len_RangeIndex. rewrite Hidx in Hwf.
  assert (Hts : col_len (TimeCol aware ts) = length ts)
    by (unfold col_len; simpl; by rewrite length_map).
  rewrite Hts in Hwf. constructor; [|exact Hwf].
  unfold col_len, datetime_strs; simpl.
  destruct (is_dates_only aware ts); by rewrite !length_map.
Qed.

Lemma with_moving_averages_well_formed (d : DataFrame) (closes : list float) :
  well_formed d ->
  find_col "Close" (columns d) = Some (FloatCol closes) ->
  well_formed (with_moving_averages closes d).
Proof.
  intros Hwf Hc.
  assert (Hlen : col_len (FloatCol closes) = nrows d).
  { destruct (assoc_Forall _ _ _ _ Hwf Hc) as [n Hn]. exact Hn. }
  assert (Hma : forall w, col_len (FloatCol (rolling_mean w closes)) = nrows d).
  { intros w. rewrite <- Hlen. unfold col_len; simpl.
    by rewrite !length_map, rolling_mean_length. }
  unfold well_formed, with_moving_averages. simpl.
  apply (set_col_Forall (fun c => col_len c = nrows d)); [apply Hma|].
  apply (set_col_Forall (fun c => col_len c = nrows d)); [apply Hma|exact Hwf].
Qed.

(** X11. The run without errors, end to end.  For a fetched frame with
    rows, indexed by Date and carrying the six columns with a float Close,
    the script completes and binds both frames: [df] is the normalised
    frame with MA7 and MA30 appended, [filtered_df] is a different object
    holding exactly the rows of [df] whose close is above the threshold
    (moving averages included), and two tables are shown: the six columns of
    the normalised frame, then Date and Close of the filtered rows. *)
Theorem script_success_path
    (history : string -> string -> fetch_outcome) (num_str : float -> string)
    (selected_stock selected_time : string) (threshold : Q) (s : state)
    (d : DataFrame) (aware : bool) (ts : list Timestamp)
    (o h l v : column) (closes : list float) :
  history selected_stock selected_time = Fetched d ->
  is_empty d = false ->
  well_formed d ->
  index_name d = Some "Date" ->
  index d = TimeCol aware ts ->
  find_col "Date" (columns d) = None ->
  find_col "Open" (columns d) = Some o ->
  find_col "High" (columns d) = Some h ->
  find_col "Low" (columns d) = Some l ->
  find_col "Close" (columns d) = Some (FloatCol closes) ->
  find_col "Volume" (columns d) = Some v ->
  exists df filtered_df s',
    script history num_str selected_stock selected_time threshold s
    = (Ok (df, Some filtered_df), s') /\
    filtered_df <> df /\
    frame_at s' df = with_moving_averages closes (normalized aware ts (columns d)) /\
    rows (frame_at s' filtered_df)
    = List.filter (close_above threshold) (rows (frame_at s' df)) /\
    tables (rendered s')
    = app (tables (rendered s))
        [({| index_name := None;
             index := RangeIndex (length ts);
             columns := [("Date", StrCol (datetime_strs aware ts)); ("Open", o);
                         ("High", h); ("Low", l); ("Close", FloatCol closes);
                         ("Volume", v)] |},
          "Stock Market Data");
         ({| index_name := None;
             index := select_col (map (float_gt threshold) closes)
                        (RangeIndex (length ts));
             columns :=
               [("Date", select_col (map (float_gt threshold) closes)
                           (StrCol (datetime_strs aware ts)));
                ("Close", FloatCol (select (map (float_gt threshold) closes) closes))] |},
          "Filtered Stock Data")].
Proof.
  intros Hhist Hne Hwf Hname Hidx Hdate Ho Hh Hl Hc Hv.
  pose proof (normalize_frame_dated num_str d aware ts Hne Hname Hidx Hdate) as Hnorm.
  set (N := normalized aware ts (columns d)) in *.
  assert (HN : fetched_frame num_str (history selected_stock selected_time) = N).
  { rewrite Hhist. simpl. by rewrite Hnorm. }
  assert (HNne : is_empty N = false).
  { rewrite <- HN. apply fetched_frame_nonempty. eauto. }
  unfold script. run.
  match goal with
  | |- context [fetch_stock_data _ _ _ _ ?s0] =>
      destruct (fetch_stock_data_run history num_str selected_stock selected_time s0)
        as (df & s1 & Hrun & Hat & _ & _ & Hrd)
  end.
  rewrite HN in Hat. rewrite Hrun, Hat, HNne. simpl.
  destruct (display_run num_str s1 df selected_stock selected_time threshold
              (StrCol (datetime_strs aware ts)) o h l v closes)
    as (fl & s2 & Hd & Hfl & Hdf & Hflat & Htab);
    try (rewrite Hat; unfold N, normalized; simpl; assumption).
  { rewrite Hat. reflexivity. }
  rewrite Hd. simpl. rewrite Hat in *.
  exists df, fl. eexists. split; [reflexivity|]. split; [exact Hfl|].
  unfold frame_at in *; simpl. split; [exact Hdf|]. split.
  - rewrite Hflat, Hdf. apply rows_filter_close.
    + apply with_moving_averages_well_formed.
      * by apply normalized_well_formed.
      * unfold N, normalized; simpl. exact Hc.
    + unfold with_moving_averages. simpl.
      rewrite !find_col_set_col_ne by discriminate. exact Hc.
  - rewrite Htab, Hrd. simpl. rewrite tables_app. simpl. by rewrite app_nil_r.
Qed.

(** X12. The filter fails without a trace: when line 100 raises, no frame
    has been created or changed, and it raises only KeyError for a missing
    Close column or TypeError for a Close column of text or timestamps. *)
Theorem filter_above_failure (s s' : state) (df : loc) (threshold : Q) (e : exn) :
  filter_above df threshold s = (Raise e, s') ->
  s' = s /\
  ((e = KeyError "Close" /\ find_col "Close" (columns (frame_at s df)) = None) \/
   (exists msg c, e = TypeError msg /\
      find_col "Close" (columns (frame_at s df)) = Some c /\ not_numeric c)).
Proof.
  unfold filter_above, getitem, getitem_mask. run.
  destruct (assoc "Close" (columns (frame_at s df))) as [c|] eqn:Hc; simpl.
  2: { intros [= <- <-]. split; [reflexivity|]. by left. }
  destruct c as [xs|xs|xs|xs|a xs]; simpl; try discriminate.
  - intros [= <- <-]. split; [reflexivity|]. right.
    do 2 eexists. split; [reflexivity|]. split; [reflexivity|exact I].
  - intros [= <- <-]. split; [reflexivity|]. right.
    do 2 eexists. split; [reflexivity|]. split; [reflexivity|exact I].
Qed.

Lemma fetched_frame_empty (num_str : float -> string) (o : fetch_outcome) :
  is_empty (fetched_frame num_str o) = true -> fetched_frame num_str o = empty_frame.
Proof.
  destruct o as [e|d]; simpl; [reflexivity|].
  destruct (normalize_frame num_str d) as [d'|e] eqn:Hn; [|reflexivity].
  intros Hempty.
  assert (Hne : is_empty (fetched_frame num_str (Fetched d)) = false)
    by (apply fetched_frame_nonempty; eauto).
  simpl in Hne. rewrite Hn in Hne. congruence.
Qed.

(** X13. Whenever the fetch hands back no data, for whatever reason, the
    run still completes: it shows the title and the no-data notice and
    nothing else, binds no [filtered_df], and its log is the three
    selection records, the two records of the fetch, the warning and the
    closing record. *)
Theorem script_without_data
    (history : string -> string -> fetch_outcome) (num_str : float -> string)
    (selected_stock selected_time : string) (threshold : Q) (s : state) :
  is_empty (fetched_frame num_str (history selected_stock selected_time)) = true ->
  exists df s',
    script history num_str selected_stock selected_time threshold s
    = (Ok (df, None), s') /\
    frame_at s' df = empty_frame /\
    rendered s'
    = app (rendered s)
        [Text "# 📈 Interactive Stock Market Analysis";
         Text "⚠️ No stock data available. Please try again later."] /\
    logs s'
    = app (logs s)
        [(INFO, "UI: Title displayed");
         (INFO, "User selected stock: " ++ selected_stock);
         (INFO, "User selected time period: " ++ selected_time);
         (INFO, "Fetching stock data for " ++ selected_stock
                ++ " for period " ++ selected_time ++ "...");
         fetch_log num_str selected_stock (history selected_stock selected_time);
         (WARNING, "No stock data available!");
         (INFO, "Script execution completed!")].
Proof.
  intros Hempty. apply fetched_frame_empty in Hempty.
  unfold script. run.
  match goal with
  | |- context [fetch_stock_data _ _ _ _ ?s0] =>
      destruct (fetch_stock_data_run history num_str selected_stock selected_time s0)
        as (l & s1 & Hrun & Hat & _ & _ & Hrd);
      pose proof (fetch_stock_data_logs _ _ _ _ _ _ _ Hrun) as Hlogs
  end.
  rewrite Hrun, Hat, Hempty. simpl in *.
  do 2 eexists. split; [reflexivity|]. split; [|split]; simpl.
  - unfold frame_at in *; simpl. by rewrite Hat, Hempty.
  - rewrite Hrd, <- app_assoc. reflexivity.
  - rewrite Hlogs, <- !app_assoc. reflexivity.
Qed.

(** ** Concrete runs of the further properties *)

Lemma sample_fetch_run :
  fetch_stock_data (sample_source false) sample_num_str "AAPL" "1mo" init_state
  = (Ok 0, sample_fetched_state).
Proof. vm_compute. reflexivity. Qed.

Lemma sample_history_well_formed (aware : bool) : well_formed (sample_history aware).
Proof. repeat constructor. Qed.

Lemma fetch_keeps_rows_and_columns_witness :
  nrows (frame_at sample_fetched_state 0) = nrows (sample_history false) /\
  index (frame_at sample_fetched_state 0) = RangeIndex (nrows (sample_history false)) /\
  well_formed (frame_at sample_fetched_state 0) /\
  length (columns (frame_at sample_fetched_state 0))
  = S (length (columns (sample_history false))) /\
  (forall name, name <> "Date" -> name <> reset_name (sample_history false) ->
     find_col name (columns (frame_at sample_fetched_state 0))
     = find_col name (columns (sample_history false))) /\
  exists strs,
    find_col "Date" (columns (frame_at sample_fetched_state 0)) = Some (StrCol strs) /\
    length strs = nrows (sample_history false).
Proof.
  apply (fetch_keeps_rows_and_columns (sample_source false) sample_num_str
           "AAPL" "1mo" init_state sample_fetched_state 0 (sample_history false)).
  - reflexivity.
  - apply sample_history_well_formed.
  - exact sample_fetch_run.
  - vm_compute. reflexivity.
Defined.

Lemma fetch_without_date_index_is_empty_witness :
  exists l s',
    fetch_stock_data intraday_source sample_num_str "AAPL" "1d" init_state = (Ok l, s') /\
    frame_at s' l = empty_frame /\
    last (logs s') = Some (ERROR, "Error fetching data for " ++ "AAPL" ++ ": 'Date'").
Proof.
  apply (fetch_without_date_index_is_empty intraday_source sample_num_str
           "AAPL" "1d" init_state intraday_history "Datetime");
    try reflexivity.
  discriminate.
Defined.


Lemma moving_averages_append_once_witness :
  exists s1 s2,
    compute_moving_averages 0 sample_state = (Ok tt, s1) /\
    well_formed (frame_at s1 0) /\
    (find_col "MA7" (columns (frame_at sample_state 0)) = None ->
     find_col "MA30" (columns (frame_at sample_state 0)) = None ->
     column_names (frame_at s1 0)
     = app (column_names (frame_at sample_state 0)) ["MA7"; "MA30"]) /\
    compute_moving_averages 0 s1 = (Ok tt, s2) /\
    frame_at s2 0 = frame_at s1 0.
Proof.
  apply (moving_averages_append_once sample_state 0 [Some 10%Q; Some 20%Q; Some 30%Q]).
  - exact sample_state_well_formed.
  - reflexivity.
Defined.

Lemma moving_average_nan_in_window_witness :
  rolling_mean 2 [Some 10%Q; None; Some 30%Q] !! 2 = Some None.
Proof.
  apply (moving_average_nan_in_window 2 2 1 [Some 10%Q; None; Some 30%Q]);
    simpl; try lia; reflexivity.
Defined.


Lemma filter_above_twice_witness :
  exists l1 s1 l2 s2,
    filter_above 0 15%Q sample_state = (Ok l1, s1) /\
    well_formed (frame_at s1 l1) /\
    filter_above l1 25%Q s1 = (Ok l2, s2) /\
    rows (frame_at s2 l2)
    = List.filter (both_above 15%Q 25%Q) (rows (frame_at sample_state 0)) /\
    ((15 <= 25)%Q ->
     rows (frame_at s2 l2)
     = List.filter (close_above 25%Q) (rows (frame_at sample_state 0))).
Proof.
  apply (filter_above_twice sample_state 0 15%Q 25%Q [Some 10%Q; Some 20%Q; Some 30%Q]).
  - exact sample_state_well_formed.
  - reflexivity.
Defined.

Lemma filter_above_failure_witness :
  text_close_state = text_close_state /\
  ((TypeError "'>' not supported between instances of 'str' and 'int'"
    = KeyError "Close" /\
    find_col "Close" (columns (frame_at text_close_state 0)) = None) \/
   (exists msg c,
      TypeError "'>' not supported between instances of 'str' and 'int'"
      = TypeError msg /\
      find_col "Close" (columns (frame_at text_close_state 0)) = Some c /\
      not_numeric c)).
Proof.
  apply (filter_above_failure text_close_state text_close_state 0 500%Q
           (TypeError "'>' not supported between instances of 'str' and 'int'")).
  reflexivity.
Defined.

Lemma script_success_path_witness :
  exists df filtered_df s',
    script (sample_source false) sample_num_str "AAPL" "1mo" 15%Q init_state
    = (Ok (df, Some filtered_df), s') /\
    filtered_df <> df /\
    rows (frame_at s' filtered_df)
    = List.filter (close_above 15%Q) (rows (frame_at s' df)).
Proof.
  destruct (script_success_path (sample_source false) sample_num_str "AAPL" "1mo"
              15%Q init_state (sample_history false) false
              [midnight 2024 1 1; midnight 2024 1 2; midnight 2024 1 3]
              (FloatCol [Some 9%Q; Some 19%Q; Some 29%Q])
              (FloatCol [Some 11%Q; Some 21%Q; Some 31%Q])
              (FloatCol [Some 8%Q; Some 18%Q; Some 28%Q])
              (IntCol [100%Z; 200%Z; 300%Z])
              [Some 10%Q; Some 20%Q; Some 30%Q]
              eq_refl eq_refl (sample_history_well_formed false)
              eq_refl eq_refl eq_refl eq_refl eq_refl eq_refl eq_refl eq_refl)
    as (df & fl & s' & Hrun & Hne & _ & Hrows & _).
  exists df, fl, s'. by repeat split.
Defined.

Lemma script_without_data_witness :
  exists df s',
    script failing_source sample_num_str "AAPL" "1mo" 500%Q init_state
    = (Ok (df, None), s') /\
    frame_at s' df = empty_frame.
Proof.
  destruct (script_without_data failing_source sample_num_str "AAPL" "1mo" 500%Q
              init_state eq_refl)
    as (df & s' & Hrun & Hat & _).
  exists df, s'. by split.
Defined.

(** A frame without a Volume column stops the script at line 64. *)
Example script_aborts_without_volume :
  (script no_volume_source sample_num_str "AAPL" "1mo" 500%Q init_state).1
  = Raise (KeyError "Volume").
Proof. vm_compute. reflexivity. Qed.

Lemma fetch_nonempty_iff_normalised_witness :
  is_empty (frame_at sample_fetched_state 0) = false.
Proof.
  destruct (fetch_nonempty_iff_normalised (sample_source false) sample_num_str
              "AAPL" "1mo" init_state) as (l & s' & Hrun & Hiff).
  rewrite sample_fetch_run in Hrun. injection Hrun as <- <-.
  apply Hiff. exists (sample_history false). eexists.
  split; [reflexivity|]. split; vm_compute; reflexivity.
Defined.

Lemma fetch_writes_two_log_records_witness :
  logs sample_fetched_state
  = [(INFO, "Fetching stock data for AAPL for period 1mo...");
     (INFO, "Successfully fetched 3 records for AAPL.")].
Proof.
  destruct (fetch_writes_two_log_records (sample_source false) sample_num_str
              "AAPL" "1mo" init_state) as (l & s' & Hrun & Hlogs & _).
  rewrite sample_fetch_run in Hrun. injection Hrun as <- <-.
  rewrite Hlogs. vm_compute. reflexivity.
Defined.

